(** * Credential management of the study-progress backend (src/main.py)

    A shallow embedding of [hash_password], [verify_password], [signup] and
    [login], together with the library calls they rest on: SHA-256
    (hashlib), [secrets.token_hex] / [secrets.token_urlsafe], the clock and
    the document store; and of the endpoints that add and list notes and
    reminders.

    Conventions.
    - A Python [str] is a [string]: the text in its UTF-8 bytes, so that
      [encode] is the identity on bytes; a str that cannot be encoded (a
      lone surrogate) is outside the model.  [lower] and [strip] act on
      the ASCII letters and the ASCII white space.
    - A dict is a [gmap string value]; a Mongo collection is the list of
      its documents in insertion order.
    - Effects are threaded through the monad [M]: a state (store handle,
      entropy, clock, identifiers to come, log of the calls made) and an
      exception or a value. *)

From Stdlib Require Import ZArith String Ascii List Lia.
From Stdlib Require Import Strings.Byte.
From stdpp Require Import gmap strings list.

Module SHA256.
Local Open Scope Z_scope.

Definition wrap32 (x : Z) : Z := Z.land x 0xffffffff.
Definition add32 (x y : Z) : Z := wrap32 (x + y).
Definition rotr (n x : Z) : Z :=
  Z.lor (Z.shiftr x n) (wrap32 (Z.shiftl x (32 - n))).
Definition not32 (x : Z) : Z := Z.lxor x 0xffffffff.

Definition Ch (x y z : Z) : Z := Z.lxor (Z.land x y) (Z.land (not32 x) z).
Definition Maj (x y z : Z) : Z :=
  Z.lxor (Z.lxor (Z.land x y) (Z.land x z)) (Z.land y z).
Definition Sigma0 (x : Z) : Z := Z.lxor (Z.lxor (rotr 2 x) (rotr 13 x)) (rotr 22 x).
Definition Sigma1 (x : Z) : Z := Z.lxor (Z.lxor (rotr 6 x) (rotr 11 x)) (rotr 25 x).
Definition sigma0 (x : Z) : Z := Z.lxor (Z.lxor (rotr 7 x) (rotr 18 x)) (Z.shiftr x 3).
Definition sigma1 (x : Z) : Z := Z.lxor (Z.lxor (rotr 17 x) (rotr 19 x)) (Z.shiftr x 10).

(* The constants are the leading 32 fractional bits of the square roots
   (initial state) and cube roots (round constants) of the first primes. *)
Definition is_prime (n : Z) : bool :=
  forallb (fun d => negb (n mod Z.of_nat d =? 0)) (seq 2 (Z.to_nat n - 2)).
Definition primes64 : list Z :=
  Eval vm_compute in
    firstn 64 (List.filter is_prime (map Z.of_nat (seq 2 310))).

(* Largest r with r^3 <= n, found bit by bit from 2^bits downwards. *)
Fixpoint icbrt_from (bits : nat) (n r : Z) : Z :=
  match bits with
  | O => r
  | S b =>
      let r' := r + 2 ^ Z.of_nat b in
      icbrt_from b n (if r' * r' * r' <=? n then r' else r)
  end.
Definition icbrt (n : Z) : Z := icbrt_from 40 n 0.

Definition H0 : list Z :=
  Eval vm_compute in
    map (fun p => wrap32 (Z.sqrt (p * 2 ^ 64))) (firstn 8 primes64).
Definition K : list Z :=
  Eval vm_compute in map (fun p => wrap32 (icbrt (p * 2 ^ 96))) primes64.

Definition byteZ (b : byte) : Z := Z.of_N (Byte.to_N b).

(* Padding: 0x80, zero bytes up to 56 mod 64, then the bit length on 8 bytes. *)
Definition be_bytes (n : nat) (x : Z) : list Z :=
  map (fun i => Z.land (Z.shiftr x (8 * Z.of_nat (n - 1 - i))) 0xff) (seq 0 n).
Definition pad (msg : list byte) : list Z :=
  let len := Z.of_nat (List.length msg) in
  map byteZ msg ++ 0x80 :: repeat 0 (Z.to_nat ((55 - len) mod 64))
    ++ be_bytes 8 (8 * len).

Fixpoint be_words (fuel : nat) (bs : list Z) : list Z :=
  match fuel, bs with
  | S f, b0 :: b1 :: b2 :: b3 :: rest =>
      Z.lor (Z.lor (Z.shiftl b0 24) (Z.shiftl b1 16)) (Z.lor (Z.shiftl b2 8) b3)
        :: be_words f rest
  | _, _ => []
  end.

Fixpoint blocks (fuel : nat) (ws : list Z) : list (list Z) :=
  match fuel, ws with
  | _, [] => []
  | O, _ => []
  | S f, _ => firstn 16 ws :: blocks f (skipn 16 ws)
  end.

(* Message schedule, kept newest word first while it grows. *)
Fixpoint extend (n : nat) (w : list Z) : list Z :=
  match n with
  | O => w
  | S n' =>
      let wt := add32 (add32 (sigma1 (nth 1 w 0)) (nth 6 w 0))
                      (add32 (sigma0 (nth 14 w 0)) (nth 15 w 0)) in
      extend n' (wt :: w)
  end.
Definition schedule (block : list Z) : list Z := rev (extend 48 (rev block)).

Record regs := Regs { ra : Z; rb : Z; rc : Z; rd : Z; re : Z; rf : Z; rg : Z; rh : Z }.

Definition round (s : regs) (kw : Z * Z) : regs :=
  let t1 := add32 (add32 (add32 (rh s) (Sigma1 (re s))) (Ch (re s) (rf s) (rg s)))
                  (add32 (fst kw) (snd kw)) in
  let t2 := add32 (Sigma0 (ra s)) (Maj (ra s) (rb s) (rc s)) in
  Regs (add32 t1 t2) (ra s) (rb s) (rc s) (add32 (rd s) t1) (re s) (rf s) (rg s).

Definition compress (h : regs) (block : list Z) : regs :=
  let s := fold_left round (combine K (schedule block)) h in
  Regs (add32 (ra h) (ra s)) (add32 (rb h) (rb s)) (add32 (rc h) (rc s))
       (add32 (rd h) (rd s)) (add32 (re h) (re s)) (add32 (rf h) (rf s))
       (add32 (rg h) (rg s)) (add32 (rh h) (rh s)).

Definition init : regs :=
  Regs (nth 0 H0 0) (nth 1 H0 0) (nth 2 H0 0) (nth 3 H0 0)
       (nth 4 H0 0) (nth 5 H0 0) (nth 6 H0 0) (nth 7 H0 0).

Definition digest_words (msg : list byte) : list Z :=
  let p := pad msg in
  let n := List.length p in
  let s := fold_left compress (blocks n (be_words n p)) init in
  [ra s; rb s; rc s; rd s; re s; rf s; rg s; rh s].

Definition hexdigit (n : Z) : ascii :=
  match n with
  | 0 => "0" | 1 => "1" | 2 => "2" | 3 => "3" | 4 => "4" | 5 => "5"
  | 6 => "6" | 7 => "7" | 8 => "8" | 9 => "9" | 10 => "a" | 11 => "b"
  | 12 => "c" | 13 => "d" | 14 => "e" | _ => "f"
  end%char.

Definition hex_of (nibbles : nat) (x : Z) : list ascii :=
  map (fun i => hexdigit (Z.land (Z.shiftr x (4 * Z.of_nat (nibbles - 1 - i))) 0xf))
      (seq 0 nibbles).

Definition hexdigest (msg : list byte) : string :=
  string_of_list_ascii (concat (map (hex_of 8) (digest_words msg))).

End SHA256.

Local Open Scope string_scope.

(** * Python strings *)

(* s.encode().  A str is held as its UTF-8 bytes, so encoding only reads
   them off.  Text that has no UTF-8 form (a str with a lone surrogate,
   on which encode raises UnicodeEncodeError) is not a [string] of this
   development: passwords and salts range over encodable text. *)
Definition encode (s : string) : list byte := list_byte_of_string s.

Fixpoint split (sep : ascii) (s : string) : list string :=
  match s with
  | EmptyString => [EmptyString]
  | String c rest =>
      if Ascii.eqb c sep then EmptyString :: split sep rest
      else match split sep rest with
           | [] => [String c EmptyString]
           | piece :: pieces => String c piece :: pieces
           end
  end.

(* str.lower() on ASCII text: A-Z go to a-z and every other byte is kept,
   so a letter outside ASCII, which Python would lowercase too, is left
   as it is.  The statements use of [lower] what they say, and its
   idempotence. *)
Definition lower_char (c : ascii) : ascii :=
  let n := nat_of_ascii c in
  if (65 <=? n)%nat && (n <=? 90)%nat then ascii_of_nat (n + 32) else c.
Definition lower (s : string) : string :=
  string_of_list_ascii (map lower_char (list_ascii_of_string s)).

(* str.strip() on ASCII text: the white space removed is the ASCII one
   (tab to carriage return, the four separators 28-31, the blank); the
   white space Python knows beyond ASCII is kept. *)
Definition is_space (c : ascii) : bool :=
  let n := nat_of_ascii c in
  ((9 <=? n)%nat && (n <=? 13)%nat) || ((28 <=? n)%nat && (n <=? 32)%nat).
Fixpoint lstrip (s : string) : string :=
  match s with
  | String c rest => if is_space c then lstrip rest else s
  | EmptyString => EmptyString
  end.
Definition rev_string (s : string) : string :=
  string_of_list_ascii (rev (list_ascii_of_string s)).
Definition strip (s : string) : string :=
  rev_string (lstrip (rev_string (lstrip s))).

(** * Documents and the store *)

Record datetime := Datetime {
  year : Z; month : Z; day : Z;
  hour : Z; minute : Z; second : Z; microsecond : Z;
  utc : bool
}.

Inductive value :=
| VStr (s : string)
| VObjectId (oid : string)
| VDatetime (t : datetime).

Global Instance datetime_eq_dec : EqDecision datetime.
Proof. solve_decision. Defined.

Global Instance value_eq_dec : EqDecision value.
Proof. solve_decision. Defined.

Abbreviation document := (gmap string value).
Abbreviation database := (gmap string (list document)).

Inductive event :=
| EvFindOne (collection : string) (filter : document)
| EvInsertOne (collection : string) (doc : document)
| EvUrandom (nbytes : nat)
| EvNow.

Inductive exn :=
| ValueError
| TypeError
| AttributeError
| KeyError (key : string)
| HTTPException (status_code : Z) (detail : string).

(** The state the endpoints run in.  [db] is the module-level handle
    imported from [database] ([None] when the store is not configured);
    [entropy] is what the operating system's random source will yield,
    [clock] the readings of the clock to come, [oids] the identifiers the
    store will hand out, and [log] the calls made so far to the store, the
    random source and the clock. *)
Record world := World {
  db : option database;
  entropy : nat → byte;
  clock : nat → datetime;
  oids : nat → string;
  log : list event
}.

Definition M (A : Type) : Type := world → (exn + A) * world.

Global Instance M_ret : MRet M := λ A a w, (inr a, w).
Global Instance M_bind : MBind M := λ A B f m w,
  match m w with
  | (inl e, w') => (inl e, w')
  | (inr a, w') => f a w'
  end.

Definition raise {A} (e : exn) : M A := λ w, (inl e, w).

Definition urandom (nbytes : nat) : M (list byte) := λ w,
  (inr (map (entropy w) (seq 0 nbytes)),
   World (db w) (λ i, entropy w (nbytes + i)%nat) (clock w) (oids w)
         (log w ++ [EvUrandom nbytes])%list).

Definition now_utc : M datetime := λ w,
  let t := clock w 0%nat in
  (inr (Datetime (year t) (month t) (day t) (hour t) (minute t) (second t)
                 (microsecond t) true),
   World (db w) (entropy w) (λ i, clock w (S i)) (oids w) (log w ++ [EvNow])%list).

(** Modelled from the spec: the document store, whose module [database]
    and driver are not under src/.  Section 6 gives its contract as
    [find_one(collection, filter) -> Account | none] and
    [insert_one(collection, document) -> generated_id]; an account matches
    a filter when it holds every field of the filter with the same value,
    the first match in insertion order is returned, and an insert appends
    the document under an identifier the store assigns.  Called on a handle
    that is [None], either fails as any subscript of [None] does. *)
Definition matches (filter doc : document) : bool :=
  forallb (λ kv, bool_decide (doc !! kv.1 = Some kv.2)) (map_to_list filter).

Definition find_one (collection : string) (filter : document)
  : M (option document) := λ w,
  match db w with
  | None => (inl TypeError, w)
  | Some d =>
      (inr (List.find (matches filter) (default [] (d !! collection))),
       World (db w) (entropy w) (clock w) (oids w)
             (log w ++ [EvFindOne collection filter])%list)
  end.

Definition insert_one (collection : string) (doc : document) : M string := λ w,
  match db w with
  | None => (inl TypeError, w)
  | Some d =>
      let oid := oids w 0%nat in
      let stored := <["_id" := VObjectId oid]> doc in
      (inr oid,
       World (Some (<[collection := (default [] (d !! collection) ++ [stored])%list]> d))
             (entropy w) (clock w) (λ i, oids w (S i))
             (log w ++ [EvInsertOne collection doc])%list)
  end.

(** * secrets *)

Definition hexlify (bs : list byte) : string :=
  string_of_list_ascii (concat (map (λ b, SHA256.hex_of 2 (SHA256.byteZ b)) bs)).

Definition token_hex (nbytes : nat) : M string :=
  bs ← urandom nbytes;
  mret (hexlify bs).

(* hashlib.sha256(s.encode()).hexdigest() *)
Definition sha256_hex (s : string) : string := SHA256.hexdigest (encode s).

Definition SALT_LEN : nat := 16.

(* The truth value of a str: only the empty one is false. *)
Definition truthy (s : string) : bool :=
  match s with EmptyString => false | _ => true end.

(* salt = salt or secrets.token_hex(SALT_LEN): None and "" both draw a salt. *)
Definition hash_password (password : string) (salt : option string) : M string :=
  salt ← match salt with
          | Some s => if truthy s then mret s else token_hex SALT_LEN
          | None => token_hex SALT_LEN
          end;
  let h := sha256_hex (salt ++ password) in
  mret (salt ++ "$" ++ h).

Definition unpack2 (parts : list string) : exn + string * string :=
  match parts with
  | [a; b] => inr (a, b)
  | _ => inl ValueError
  end.

(* try: salt, _hash = stored.split("$") / except ValueError: return False *)
Definition verify_password (password stored : string) : M bool :=
  match unpack2 (split "$" stored) with
  | inl ValueError => mret false
  | inl e => raise e
  | inr (salt, _hash) =>
      recomputed ← hash_password password (Some salt);
      mret (String.eqb recomputed stored)
  end.

(** * Values as Python sees them *)

Definition decdigit (n : Z) : ascii :=
  match n with
  | 0 => "0" | 1 => "1" | 2 => "2" | 3 => "3" | 4 => "4"
  | 5 => "5" | 6 => "6" | 7 => "7" | 8 => "8" | _ => "9"
  end%Z%char.

Definition zfill (width : nat) (n : Z) : string :=
  string_of_list_ascii
    (map (λ i, decdigit ((n / 10 ^ Z.of_nat (width - 1 - i)) mod 10)%Z)
         (seq 0 width)).

(* str(datetime): isoformat with a blank between date and time. *)
Definition str_datetime (t : datetime) : string :=
  zfill 4 (year t) ++ "-" ++ zfill 2 (month t) ++ "-" ++ zfill 2 (day t)
    ++ " " ++ zfill 2 (hour t) ++ ":" ++ zfill 2 (minute t) ++ ":"
    ++ zfill 2 (second t)
    ++ (if (microsecond t =? 0)%Z then "" else "." ++ zfill 6 (microsecond t))
    ++ (if utc t then "+00:00" else "").

Definition str (v : value) : string :=
  match v with
  | VStr s => s
  | VObjectId oid => oid
  | VDatetime t => str_datetime t
  end.

Definition getitem (d : document) (key : string) : M value :=
  match d !! key with
  | Some v => mret v
  | None => raise (KeyError key)
  end.

(* Truth value of what find_one returns: None and the empty dict are false. *)
Definition found (r : option document) : bool :=
  match r with
  | Some d => negb (bool_decide (d = ∅))
  | None => false
  end.

(** * secrets.token_urlsafe *)

Definition b64url_char (n : Z) : ascii :=
  nth (Z.to_nat n)
      (list_ascii_of_string
         "ABCDEFGHIJKLMNOPQRSTUVWXYZabcdefghijklmnopqrstuvwxyz0123456789-_")
      "A"%char.

Fixpoint b64url (bs : list Z) : list ascii :=
  match bs with
  | b0 :: b1 :: b2 :: rest =>
      b64url_char (Z.shiftr b0 2)
        :: b64url_char (Z.lor (Z.shiftl (Z.land b0 3) 4) (Z.shiftr b1 4))
        :: b64url_char (Z.lor (Z.shiftl (Z.land b1 15) 2) (Z.shiftr b2 6))
        :: b64url_char (Z.land b2 63) :: b64url rest
  | [b0; b1] =>
      [b64url_char (Z.shiftr b0 2);
       b64url_char (Z.lor (Z.shiftl (Z.land b0 3) 4) (Z.shiftr b1 4));
       b64url_char (Z.shiftl (Z.land b1 15) 2)]
  | [b0] =>
      [b64url_char (Z.shiftr b0 2); b64url_char (Z.shiftl (Z.land b0 3) 4)]
  | [] => []
  end.

Definition token_urlsafe (nbytes : nat) : M string :=
  bs ← urandom nbytes;
  mret (string_of_list_ascii (b64url (map SHA256.byteZ bs))).

(** * Requests and the two endpoints *)

Module SignupRequest.
Record t := Build { name : string; email : string; password : string }.
End SignupRequest.

Module LoginRequest.
Record t := Build { email : string; password : string }.
End LoginRequest.

(* The dict {"token": ..., "user": {...}} that login returns. *)
Record login_response := LoginResponse { token : string; user : document }.

Definition get_db : M (option database) := λ w, (inr (db w), w).

Definition signup (req : SignupRequest.t) : M document :=
  handle ← get_db;
  match handle with
  | None => raise (HTTPException 500 "Database not configured")
  | Some _ =>
      let users := "user" in
      existing ← find_one users {[ "email" := VStr (SignupRequest.email req) ]};
      if found existing
      then raise (HTTPException 400 "Email already registered")
      else
        let name := strip (SignupRequest.name req) in
        let email := lower (SignupRequest.email req) in
        password_hash ← hash_password (SignupRequest.password req) None;
        created_at ← now_utc;
        updated_at ← now_utc;
        let doc : document :=
          {[ "name" := VStr name;
             "email" := VStr email;
             "password_hash" := VStr password_hash;
             "created_at" := VDatetime created_at;
             "updated_at" := VDatetime updated_at ]} in
        inserted_id ← insert_one users doc;
        doc_name ← getitem doc "name";
        doc_email ← getitem doc "email";
        mret ({[ "user_id" := VStr inserted_id;
                 "name" := doc_name;
                 "email" := doc_email ]} : document)
  end.

Definition invalid_credentials : exn := HTTPException 401 "Invalid credentials".

Definition login (req : LoginRequest.t) : M login_response :=
  handle ← get_db;
  match handle with
  | None => raise (HTTPException 500 "Database not configured")
  | Some _ =>
      let users := "user" in
      user ← find_one users {[ "email" := VStr (lower (LoginRequest.email req)) ]};
      match user with
      | None => raise invalid_credentials
      | Some u =>
          if negb (found user) then raise invalid_credentials
          else
            ok ← match default (VStr "") (u !! "password_hash") with
                 | VStr stored => verify_password (LoginRequest.password req) stored
                 | _ => raise AttributeError
                 end;
            if negb ok then raise invalid_credentials
            else
              token ← token_urlsafe 24;
              uid ← getitem u "_id";
              name ← getitem u "name";
              email ← getitem u "email";
              mret (LoginResponse token
                      {[ "id" := VStr (str uid); "name" := name; "email" := email ]})
      end
  end.

(** * Vocabulary of the statements *)

Fixpoint count_char (c : ascii) (s : string) : nat :=
  match s with
  | EmptyString => 0
  | String x rest => (if Ascii.eqb x c then 1 else 0) + count_char c rest
  end.

Definition DELIM : ascii := "$"%char.

(* The text of a record before its first delimiter. *)
Definition salt_of (record : string) : string := hd "" (split DELIM record).

Definition is_hex (c : ascii) : bool :=
  existsb (Ascii.eqb c) (list_ascii_of_string "0123456789abcdef").

(* The state after reading [n] bytes of entropy. *)
Definition after_urandom (n : nat) (w : world) : world :=
  World (db w) (λ i, entropy w (n + i)%nat) (clock w) (oids w)
        (log w ++ [EvUrandom n])%list.

(* The salt that token_hex(SALT_LEN) yields in state [w]. *)
Definition fresh_salt (w : world) : string :=
  hexlify (map (entropy w) (seq 0 SALT_LEN)).

(** A concrete state to evaluate the code in: an empty, configured store,
    an entropy source that counts 0, 1, 2, ..., a clock and a supply of
    identifiers. *)
Definition sample_entropy (i : nat) : byte :=
  default x00 (Byte.of_N (N.of_nat (i mod 256))).
Definition sample_world : world :=
  World (Some ∅) sample_entropy
        (λ i, Datetime 2026 1 2 3 4 5 (Z.of_nat i) false)
        (λ i, "65a000000000000000000" ++ zfill 3 (Z.of_nat i)) [].
Definition unconfigured_world : world :=
  World None sample_entropy (clock sample_world) (oids sample_world) [].

(* An account as signup("Ann", "ANN@x.com", "secret1") leaves it. *)
Definition ann_account : document :=
  {[ "_id" := VObjectId "65a000000000000000000000";
     "name" := VStr "Ann";
     "email" := VStr "ann@x.com";
     "password_hash" :=
       VStr "ab$f1001cf9ed062b356ca028a62e6ffab9ebdcc0e9e6a4998a802993d6b1fcde8a";
     "created_at" := VDatetime (Datetime 2026 1 2 3 4 5 0 true);
     "updated_at" := VDatetime (Datetime 2026 1 2 3 4 5 0 true) ]}.
Definition ann_world : world :=
  World (Some {[ "user" := [ann_account] ]}) sample_entropy
        (clock sample_world) (λ i, oids sample_world (S i)) [].

(* The users collection of a state, empty when there is none. *)
Definition users_of (w : world) : list document :=
  default [] (default ∅ (db w) !! "user").

(** * Notes and reminders *)

Module NoteRequest.
Record t := Build { user_id : string; content : string }.
End NoteRequest.

Module ReminderRequest.
Record t := Build { user_id : string; text : string; time : string }.
End ReminderRequest.

(* The dict {"items": [...]} that the listing endpoints return. *)
Record items_response := Items { items : list document }.

Module Collection.

(** Modelled from the spec: the query of the document store that returns
    every match (section 1 names find beside insert; the driver is not
    under src/).  It selects, in insertion order, the documents that
    [matches] accepts, and changes nothing. *)
Definition find (collection : string) (filter : document)
  : M (list document) := λ w,
  match db w with
  | None => (inl TypeError, w)
  | Some d => (inr (List.filter (matches filter) (default [] (d !! collection))), w)
  end.

End Collection.

(* it.pop(key): the value and the dict without it, KeyError when absent. *)
Definition pop (it : document) (key : string) : M (value * document) :=
  match it !! key with
  | Some v => mret (v, delete key it)
  | None => raise (KeyError key)
  end.

(* it["id"] = str(it.pop("_id")) *)
Definition rename_id (it : document) : M document :=
  popped ← pop it "_id";
  mret (<["id" := VStr (str popped.1)]> popped.2).

(* for it in items: ...; the first failure ends the loop. *)
Fixpoint for_items (body : document → M document) (items : list document)
  : M (list document) :=
  match items with
  | [] => mret []
  | it :: rest =>
      it' ← body it;
      rest' ← for_items body rest;
      mret (it' :: rest')
  end.

Definition add_note (req : NoteRequest.t) : M document :=
  handle ← get_db;
  match handle with
  | None => raise (HTTPException 500 "Database not configured")
  | Some _ =>
      created_at ← now_utc;
      updated_at ← now_utc;
      let doc : document :=
        {[ "user_id" := VStr (NoteRequest.user_id req);
           "content" := VStr (NoteRequest.content req);
           "created_at" := VDatetime created_at;
           "updated_at" := VDatetime updated_at ]} in
      inserted_id ← insert_one "note" doc;
      mret ({[ "id" := VStr inserted_id ]} : document)
  end.

Definition add_reminder (req : ReminderRequest.t) : M document :=
  handle ← get_db;
  match handle with
  | None => raise (HTTPException 500 "Database not configured")
  | Some _ =>
      created_at ← now_utc;
      updated_at ← now_utc;
      let doc : document :=
        {[ "user_id" := VStr (ReminderRequest.user_id req);
           "text" := VStr (ReminderRequest.text req);
           "time" := VStr (ReminderRequest.time req);
           "created_at" := VDatetime created_at;
           "updated_at" := VDatetime updated_at ]} in
      inserted_id ← insert_one "reminder" doc;
      mret ({[ "id" := VStr inserted_id ]} : document)
  end.

Section Listing.

(** The cursor's [sort(key, direction)] is the driver's; it is taken as a
    parameter, and the statements below assume of it only that it
    rearranges the documents it is given. *)
Variable sort : string → Z → list document → list document.

Definition get_notes (user_id : string) : M items_response :=
  handle ← get_db;
  match handle with
  | None => raise (HTTPException 500 "Database not configured")
  | Some _ =>
      matching ← Collection.find "note" {[ "user_id" := VStr user_id ]};
      let items := sort "created_at" (-1) matching in
      items ← for_items rename_id items;
      mret (Items items)
  end.

Definition get_reminders (user_id : string) : M items_response :=
  handle ← get_db;
  match handle with
  | None => raise (HTTPException 500 "Database not configured")
  | Some _ =>
      matching ← Collection.find "reminder" {[ "user_id" := VStr user_id ]};
      let items := sort "created_at" (-1) matching in
      items ← for_items rename_id items;
      mret (Items items)
  end.

End Listing.

(* Newest first for documents inserted in the order of their creation. *)
Definition newest_first (key : string) (direction : Z) (l : list document)
  : list document := rev l.

(* The documents of a collection in a state, none when there is no store. *)
Definition docs_of (collection : string) (w : world) : list document :=
  default [] (default ∅ (db w) !! collection).

Definition is_urlsafe (c : ascii) : bool :=
  existsb (Ascii.eqb c)
    (list_ascii_of_string
       "ABCDEFGHIJKLMNOPQRSTUVWXYZabcdefghijklmnopqrstuvwxyz0123456789-_").

(* A computation that leaves the store as it found it. *)
Definition keeps_store {A} (m : M A) : Prop := ∀ w, db (m w).2 = db w.

(* A note of Ann's as add_note leaves it, in a store of its own. *)
Definition ann_note : document :=
  {[ "_id" := VObjectId "65a000000000000000000007";
     "user_id" := VStr "65a000000000000000000000";
     "content" := VStr "read chapter 3";
     "created_at" := VDatetime (Datetime 2026 1 2 3 4 5 0 true);
     "updated_at" := VDatetime (Datetime 2026 1 2 3 4 5 0 true) ]}.
Definition note_world : world :=
  World (Some {[ "note" := [ann_note] ]}) sample_entropy
        (clock sample_world) (oids sample_world) [].

(* The account a signup in state [w] appends to the users collection. *)
Definition new_account (req : SignupRequest.t) (w : world) : document :=
  let stamp (t : datetime) :=
    VDatetime (Datetime (year t) (month t) (day t) (hour t) (minute t)
                        (second t) (microsecond t) true) in
  <["_id" := VObjectId (oids w 0)]>
    ({[ "name" := VStr (strip (SignupRequest.name req));
        "email" := VStr (lower (SignupRequest.email req));
        "password_hash" :=
          VStr (fresh_salt w ++ "$"
                  ++ sha256_hex (fresh_salt w ++ SignupRequest.password req));
        "created_at" := stamp (clock w 0);
        "updated_at" := stamp (clock w 1) ]} : document).

(* No account of the list is stored under the email [e]. *)
Definition email_free (e : string) (l : list document) : Prop :=
  ∀ account, In account l → account !! "email" ≠ Some (VStr e).

(* A document as the listing endpoints hand it out: "_id" gone, its string
   under "id". *)
Definition renamed (doc : document) : document :=
  match doc !! "_id" with
  | Some v => <["id" := VStr (str v)]> (delete "_id" doc)
  | None => doc
  end.

(* The note an add_note in state [w] appends to the notes collection. *)
Definition new_note (req : NoteRequest.t) (w : world) : document :=
  let stamp (t : datetime) :=
    VDatetime (Datetime (year t) (month t) (day t) (hour t) (minute t)
                        (second t) (microsecond t) true) in
  <["_id" := VObjectId (oids w 0)]>
    ({[ "user_id" := VStr (NoteRequest.user_id req);
        "content" := VStr (NoteRequest.content req);
        "created_at" := stamp (clock w 0);
        "updated_at" := stamp (clock w 1) ]} : document).

(* The reminder an add_reminder in state [w] appends. *)
Definition new_reminder (req : ReminderRequest.t) (w : world) : document :=
  let stamp (t : datetime) :=
    VDatetime (Datetime (year t) (month t) (day t) (hour t) (minute t)
                        (second t) (microsecond t) true) in
  <["_id" := VObjectId (oids w 0)]>
    ({[ "user_id" := VStr (ReminderRequest.user_id req);
        "text" := VStr (ReminderRequest.text req);
        "time" := VStr (ReminderRequest.time req);
        "created_at" := stamp (clock w 0);
        "updated_at" := stamp (clock w 1) ]} : document).

(* The documents of a user in a collection, in insertion order. *)
Definition documents_of_user (collection user_id : string) (w : world)
  : list document :=
  List.filter (matches {[ "user_id" := VStr user_id ]}) (docs_of collection w).

(* Every document of the collection carries the identifier of the store. *)
Definition all_identified (collection : string) (w : world) : Prop :=
  ∀ doc, In doc (docs_of collection w) → is_Some (doc !! "_id").

Arguments SHA256.hexdigest : simpl never.
Arguments sha256_hex : simpl never.
Arguments hexlify : simpl never.

(** * Splitting on the delimiter *)

Lemma split_length sep s : List.length (split sep s) = S (count_char sep s).
Proof.
  induction s as [|c s IH]; simpl; [done|].
  destruct (Ascii.eqb c sep); simpl; [by rewrite IH|].
  destruct (split sep s); simpl in *; congruence.
Qed.

Lemma split_no_sep sep s : count_char sep s = 0 → split sep s = [s].
Proof.
  induction s as [|c s IH]; simpl; [done|].
  destruct (Ascii.eqb c sep); simpl; [done|].
  intros H. by rewrite (IH H).
Qed.

Lemma split_app sep a b :
  count_char sep a = 0 →
  split sep (a ++ String sep b) = a :: split sep b.
Proof.
  induction a as [|c a IH]; simpl.
  - intros _. by rewrite Ascii.eqb_refl.
  - destruct (Ascii.eqb c sep); simpl; [done|].
    intros H. by rewrite (IH H).
Qed.

Lemma split_record salt h :
  count_char DELIM salt = 0 → count_char DELIM h = 0 →
  split DELIM (salt ++ "$" ++ h) = [salt; h].
Proof.
  intros Hs Hh. change ("$" ++ h) with (String DELIM h).
  by rewrite split_app, split_no_sep.
Qed.

Lemma count_char_app c a b :
  count_char c (a ++ b) = count_char c a + count_char c b.
Proof. induction a as [|x a IH]; simpl; [done|]. rewrite IH. lia. Qed.

Lemma eqb_app_l a b c : String.eqb (a ++ b) (a ++ c) = String.eqb b c.
Proof.
  induction a as [|x a IH]; simpl; [done|]. by rewrite Ascii.eqb_refl.
Qed.

(** * Hexadecimal text carries no delimiter *)

Lemma hexdigit_is_hex n : is_hex (SHA256.hexdigit n) = true.
Proof.
  destruct n as [|p|p]; try reflexivity.
  do 4 (destruct p as [p|p|]; try reflexivity).
Qed.

Lemma hex_of_is_hex k x : Forall (λ c, is_hex c = true) (SHA256.hex_of k x).
Proof.
  unfold SHA256.hex_of. apply Forall_map, Forall_forall.
  intros i _. apply hexdigit_is_hex.
Qed.

Lemma hex_no_delim l :
  Forall (λ c, is_hex c = true) l →
  count_char DELIM (string_of_list_ascii l) = 0.
Proof.
  induction 1 as [|c l Hc _ IH]; simpl; [done|].
  rewrite IH. destruct (Ascii.eqb_spec c DELIM) as [->|]; [done|lia].
Qed.

Lemma Forall_concat_hex {A} (f : A → list ascii) (xs : list A) :
  (∀ x, Forall (λ c, is_hex c = true) (f x)) →
  Forall (λ c, is_hex c = true) (concat (map f xs)).
Proof.
  intros Hf. induction xs as [|x xs IH]; simpl; [constructor|].
  apply Forall_app. split; [apply Hf|apply IH].
Qed.

Lemma hexdigest_is_hex msg :
  Forall (λ c, is_hex c = true) (list_ascii_of_string (SHA256.hexdigest msg)).
Proof.
  unfold SHA256.hexdigest. rewrite list_ascii_of_string_of_list_ascii.
  apply Forall_concat_hex. intros x. apply hex_of_is_hex.
Qed.

Lemma hexdigest_no_delim msg : count_char DELIM (SHA256.hexdigest msg) = 0.
Proof.
  unfold SHA256.hexdigest. apply hex_no_delim, Forall_concat_hex.
  intros x. apply hex_of_is_hex.
Qed.

Lemma hexdigest_length msg : String.length (SHA256.hexdigest msg) = 64.
Proof. reflexivity. Qed.

Lemma sha256_hex_no_delim s : count_char DELIM (sha256_hex s) = 0.
Proof. apply hexdigest_no_delim. Qed.

Lemma hexlify_no_delim bs : count_char DELIM (hexlify bs) = 0.
Proof.
  unfold hexlify. apply hex_no_delim, Forall_concat_hex.
  intros b. apply hex_of_is_hex.
Qed.

Lemma hexlify_truthy b bs : truthy (hexlify (b :: bs)) = true.
Proof. reflexivity. Qed.

(** * Running the monad *)

Lemma token_hex_run n w :
  token_hex n w = (inr (hexlify (map (entropy w) (seq 0 n))), after_urandom n w).
Proof. reflexivity. Qed.

Lemma truthy_nonempty s : s ≠ "" → truthy s = true.
Proof. by destruct s. Qed.

Lemma hash_password_given password salt w :
  salt ≠ "" →
  hash_password password (Some salt) w
  = (inr (salt ++ "$" ++ sha256_hex (salt ++ password)), w).
Proof.
  intros H. unfold hash_password. rewrite (truthy_nonempty _ H). reflexivity.
Qed.

Lemma hash_password_fresh password w :
  hash_password password None w
  = (inr (fresh_salt w ++ "$" ++ sha256_hex (fresh_salt w ++ password)),
     after_urandom SALT_LEN w).
Proof. reflexivity. Qed.

Lemma hash_password_empty password w :
  hash_password password (Some "") w = hash_password password None w.
Proof. reflexivity. Qed.

Lemma fresh_salt_truthy w : fresh_salt w ≠ "".
Proof. unfold fresh_salt. simpl. discriminate. Qed.

Lemma fresh_salt_no_delim w : count_char DELIM (fresh_salt w) = 0.
Proof. apply hexlify_no_delim. Qed.

(* A record that splits in two is compared with its recomputation. *)
Lemma verify_password_wellformed password salt h w :
  salt ≠ "" → count_char DELIM salt = 0 → count_char DELIM h = 0 →
  verify_password password (salt ++ "$" ++ h) w
  = (inr (String.eqb (sha256_hex (salt ++ password)) h), w).
Proof.
  intros Hne Hs Hh. unfold verify_password.
  pose proof (split_record _ _ Hs Hh) as E. unfold DELIM in E.
  rewrite E. cbn [unpack2]. unfold mbind, M_bind.
  rewrite (hash_password_given _ _ _ Hne).
  unfold mret, M_ret. by rewrite eqb_app_l.
Qed.

(* A record with any other number of delimiters is refused at the unpacking. *)
Lemma verify_password_malformed password stored w :
  count_char DELIM stored ≠ 1 →
  verify_password password stored w = (inr false, w).
Proof.
  intros H. unfold verify_password.
  pose proof (split_length DELIM stored) as Hl. unfold DELIM in *.
  destruct (split "$" stored) as [|a [|b [|c l]]];
    cbn [unpack2 List.length] in *; try reflexivity.
  lia.
Qed.

Lemma eqb_head_differs s x y :
  s ≠ "" → count_char DELIM s = 0 → String.eqb (s ++ x) (String DELIM y) = false.
Proof.
  destruct s as [|c s]; [done|]. intros _ H. cbn [count_char] in H.
  destruct (Ascii.eqb c DELIM) eqn:E; [lia|].
  change (String c s ++ x) with (String c (s ++ x)).
  cbn [String.eqb]. by rewrite E.
Qed.

(** * The claims on the password hasher *)

(** C2. [verify_password] is total on its second argument: on a stored
    record with no delimiter, with more than one delimiter, or empty, it
    returns [False] without raising, and leaves the state as it was. *)
Theorem verify_password_malformed_false password stored w :
  count_char DELIM stored = 0 ∨ 1 < count_char DELIM stored ∨ stored = "" →
  verify_password password stored w = (inr false, w).
Proof.
  intros H. apply verify_password_malformed.
  destruct H as [H|[H|H]]; [lia|lia|subst stored; cbn; lia].
Qed.

Lemma verify_password_malformed_false_witness :
  verify_password "secret1" "a$b$c" sample_world = (inr false, sample_world)
  ∧ verify_password "secret1" "nodelimiter" sample_world = (inr false, sample_world)
  ∧ verify_password "secret1" "" sample_world = (inr false, sample_world).
Proof.
  split; [|split].
  - apply (verify_password_malformed_false "secret1" "a$b$c" sample_world).
    right; left. cbn. lia.
  - apply (verify_password_malformed_false "secret1" "nodelimiter" sample_world).
    left. reflexivity.
  - apply (verify_password_malformed_false "secret1" "" sample_world).
    right; right. reflexivity.
Defined.

(** C3, as stated, fails: a salt that contains the delimiter gives a
    record with two delimiters, which [verify_password] refuses. *)
Lemma roundtrip_fails_delim_in_salt :
  ((r ← hash_password "pw" (Some "a$b"); verify_password "pw" r) sample_world).1
  = inr false.
Proof. vm_compute. reflexivity. Qed.

Lemma roundtrip_without_delim password salt w :
  count_char DELIM salt = 0 →
  ∃ record w',
    hash_password password (Some salt) w = (inr record, w')
    ∧ verify_password password record w' = (inr true, w').
Proof.
  intros Hs. destruct (decide (salt = "")) as [->|Hne].
  - rewrite hash_password_empty, hash_password_fresh.
    eexists _, _. split; [reflexivity|].
    rewrite verify_password_wellformed;
      auto using fresh_salt_truthy, fresh_salt_no_delim, sha256_hex_no_delim.
    by rewrite String.eqb_refl.
  - rewrite (hash_password_given _ _ _ Hne).
    eexists _, _. split; [reflexivity|].
    rewrite verify_password_wellformed; auto using sha256_hex_no_delim.
    by rewrite String.eqb_refl.
Qed.

(** C3, amended. For every plaintext and every salt without the delimiter
    (the empty salt included, which is replaced by a fresh one),
    [hash_password] returns a record and [verify_password] accepts it. *)
Theorem verify_hash_roundtrip password salt w :
  count_char DELIM salt = 0 →
  ∃ record w',
    hash_password password (Some salt) w = (inr record, w')
    ∧ verify_password password record w' = (inr true, w').
Proof. apply roundtrip_without_delim. Qed.

Lemma verify_hash_roundtrip_witness :
  ∃ record w',
    hash_password "secret1" (Some "ab") sample_world = (inr record, w')
    ∧ verify_password "secret1" record w' = (inr true, w').
Proof.
  apply (verify_hash_roundtrip "secret1" "ab" sample_world). reflexivity.
Defined.

(** The same with the salt left out. *)
Lemma verify_hash_roundtrip_fresh password w :
  ∃ record w',
    hash_password password None w = (inr record, w')
    ∧ verify_password password record w' = (inr true, w').
Proof.
  rewrite <- hash_password_empty. by apply roundtrip_without_delim.
Qed.

(** C5, as stated, fails: the empty string is a salt one can pass, and
    two calls with it return different records. *)
Lemma hash_password_empty_salt_not_deterministic :
  ((r1 ← hash_password "pw" (Some "");
    r2 ← hash_password "pw" (Some "");
    mret (String.eqb r1 r2)) sample_world).1 = inr false.
Proof. vm_compute. reflexivity. Qed.

(** C5, amended. For every plaintext and every non-empty salt,
    [hash_password] returns the same record in whatever state it is
    called, and does not touch the state. *)
Theorem hash_password_deterministic password salt w1 w2 :
  salt ≠ "" →
  (hash_password password (Some salt) w1).1
  = (hash_password password (Some salt) w2).1
  ∧ (hash_password password (Some salt) w1).2 = w1.
Proof.
  intros H. by rewrite !(hash_password_given _ _ _ H).
Qed.

Lemma hash_password_deterministic_witness :
  (hash_password "secret1" (Some "ab") sample_world).1
  = (hash_password "secret1" (Some "ab") unconfigured_world).1
  ∧ (hash_password "secret1" (Some "ab") sample_world).2 = sample_world.
Proof.
  apply (hash_password_deterministic "secret1" "ab" sample_world unconfigured_world).
  discriminate.
Defined.

(** C8, as stated, fails at the empty salt: the record is not the empty
    salt, the delimiter and the digest of the plaintext alone. *)
Lemma hash_password_empty_salt_format :
  (hash_password "pw" (Some "") sample_world).1
  ≠ inr ("" ++ "$" ++ sha256_hex ("" ++ "pw")).
Proof. vm_compute. discriminate. Qed.

(** C8, amended. For a non-empty salt the record is the salt, the
    delimiter and the SHA-256 hex digest of salt followed by plaintext;
    for an empty or omitted salt the same holds of the salt drawn from the
    entropy source. *)
Theorem hash_password_format password salt w :
  (salt ≠ "" →
   (hash_password password (Some salt) w).1
   = inr (salt ++ "$" ++ sha256_hex (salt ++ password)))
  ∧ (hash_password password (Some "") w).1
    = inr (fresh_salt w ++ "$" ++ sha256_hex (fresh_salt w ++ password))
  ∧ (hash_password password None w).1
    = inr (fresh_salt w ++ "$" ++ sha256_hex (fresh_salt w ++ password)).
Proof.
  split; [|split].
  - intros H. by rewrite (hash_password_given _ _ _ H).
  - by rewrite hash_password_empty, hash_password_fresh.
  - by rewrite hash_password_fresh.
Qed.

Lemma hash_password_format_witness :
  (hash_password "secret1" (Some "ab") sample_world).1
  = inr "ab$f1001cf9ed062b356ca028a62e6ffab9ebdcc0e9e6a4998a802993d6b1fcde8a".
Proof.
  destruct (hash_password_format "secret1" "ab" sample_world) as [H _].
  rewrite H; [|discriminate]. vm_compute. reflexivity.
Defined.

(* Checking a record with an empty salt draws a salt and fails. *)
Lemma verify_password_draws_salt password rest w :
  count_char DELIM rest = 0 →
  verify_password password ("$" ++ rest) w
  = (inr false, after_urandom SALT_LEN w).
Proof.
  intros H0. unfold verify_password.
  pose proof (split_record "" rest eq_refl H0) as E. unfold DELIM in E.
  change ("" ++ "$" ++ rest) with ("$" ++ rest) in E.
  rewrite E. cbn [unpack2]. unfold mbind, M_bind.
  rewrite hash_password_empty, hash_password_fresh. unfold mret, M_ret.
  f_equal. f_equal.
  apply (eqb_head_differs (fresh_salt w));
    auto using fresh_salt_truthy, fresh_salt_no_delim.
Qed.

(** C10. Given the empty salt, [hash_password] does what it does with
    the salt left out: it reads SALT_LEN = 16 bytes of entropy and returns
    their 32 hexadecimal characters, the delimiter and the digest of that
    salt followed by the password, which is not the record of the empty
    salt.  Consequently no record whose text before the delimiter is empty
    verifies, for any password: with further delimiters it is refused at
    the unpacking, and otherwise the check draws a salt of its own (the
    state shows the 16 bytes read) and the recomputed record differs. *)
Theorem verify_password_empty_salt_false password rest w :
  hash_password password (Some "") w
  = (inr (fresh_salt w ++ "$" ++ sha256_hex (fresh_salt w ++ password)),
     World (db w) (λ i, entropy w (16 + i)) (clock w) (oids w)
           (log w ++ [EvUrandom 16])%list)
  ∧ fresh_salt w = hexlify (map (entropy w) (seq 0 16))
  ∧ String.length (fresh_salt w) = 32
  ∧ hash_password password (Some "") w = hash_password password None w
  ∧ (hash_password password (Some "") w).1
    ≠ inr ("" ++ "$" ++ sha256_hex ("" ++ password))
  ∧ (verify_password password ("$" ++ rest) w).1 = inr false
  ∧ (verify_password password ("$" ++ rest) w).2
    = (if bool_decide (count_char DELIM rest = 0)
       then World (db w) (λ i, entropy w (16 + i)) (clock w) (oids w)
                  (log w ++ [EvUrandom 16])%list
       else w).
Proof.
  split; [by rewrite hash_password_empty, hash_password_fresh|].
  split; [reflexivity|]. split; [reflexivity|].
  split; [apply hash_password_empty|]. split.
  { rewrite hash_password_empty, hash_password_fresh. cbn [fst]. intros E.
    assert (String.eqb (fresh_salt w ++ "$" ++ sha256_hex (fresh_salt w ++ password))
                       (String DELIM (sha256_hex ("" ++ password))) = true) as Hb.
    { apply String.eqb_eq.
      assert (fresh_salt w ++ "$" ++ sha256_hex (fresh_salt w ++ password)
              = "" ++ "$" ++ sha256_hex ("" ++ password)) as E' by congruence.
      exact E'. }
    rewrite eqb_head_differs in Hb
      by auto using fresh_salt_truthy, fresh_salt_no_delim.
    discriminate Hb. }
  case_bool_decide as H0.
  - by rewrite (verify_password_draws_salt _ _ _ H0).
  - rewrite verify_password_malformed; [done|].
    change ("$" ++ rest) with (String DELIM rest).
    cbn [count_char]. rewrite Ascii.eqb_refl. lia.
Qed.

(** * The salt of a record *)

Lemma salt_of_record salt h :
  count_char DELIM salt = 0 → salt_of (salt ++ "$" ++ h) = salt.
Proof.
  intros H. unfold salt_of. change ("$" ++ h) with (String DELIM h).
  by rewrite split_app.
Qed.

(** * The claims on the account service *)

(** C7. With the store handle unset, signup and login both fail with
    status 500 "Database not configured" and the state is untouched: no
    lookup, no entropy read, no clock read, no insert was made. *)
Theorem unconfigured_store_fails_first sreq lreq w :
  db w = None →
  signup sreq w = (inl (HTTPException 500 "Database not configured"), w)
  ∧ login lreq w = (inl (HTTPException 500 "Database not configured"), w).
Proof.
  intros H. unfold signup, login, get_db, mbind, M_bind. cbn [fst snd].
  by rewrite H.
Qed.

Lemma unconfigured_store_fails_first_witness :
  signup (SignupRequest.Build "Ann" "ANN@x.com" "secret1") unconfigured_world
  = (inl (HTTPException 500 "Database not configured"), unconfigured_world)
  ∧ login (LoginRequest.Build "ann@x.com" "secret1") unconfigured_world
    = (inl (HTTPException 500 "Database not configured"), unconfigured_world).
Proof.
  apply (unconfigured_store_fails_first
           (SignupRequest.Build "Ann" "ANN@x.com" "secret1")
           (LoginRequest.Build "ann@x.com" "secret1") unconfigured_world).
  reflexivity.
Defined.

(** C6. Login answers an unknown email and a wrong password alike: in a
    configured store, when the lookup by lowercased email finds nothing,
    and when it finds an account whose record the password does not
    verify against, the outcome is the same 401 "Invalid credentials". *)
Theorem login_failures_indistinguishable req w :
  db w ≠ None →
  let lookup :=
    find_one "user" {[ "email" := VStr (lower (LoginRequest.email req)) ]} w in
  (lookup.1 = inr None →
   (login req w).1 = inl (HTTPException 401 "Invalid credentials"))
  ∧ (∀ account stored,
       lookup.1 = inr (Some account) →
       default (VStr "") (account !! "password_hash") = VStr stored →
       (verify_password (LoginRequest.password req) stored lookup.2).1 = inr false →
       (login req w).1 = inl (HTTPException 401 "Invalid credentials")).
Proof.
  intros Hdb lookup. subst lookup.
  unfold login, get_db, mbind, M_bind. cbn [fst snd].
  destruct (db w) as [d|] eqn:Ed; [clear Hdb|done].
  destruct (find_one "user" _ w) as [[e|r] w1] eqn:Ef; cbn [fst snd].
  - split; [done|]. intros ? ? [=].
  - split.
    + intros [= ->]. reflexivity.
    + intros account stored [= ->] Hs Hv.
      destruct (negb (found (Some account))); [reflexivity|].
      rewrite Hs.
      destruct (verify_password _ stored w1) as [[e|ok] w2]; cbn [fst] in *.
      * discriminate.
      * injection Hv as ->. reflexivity.
Qed.

Lemma login_failures_indistinguishable_witness :
  (login (LoginRequest.Build "bob@x.com" "secret1") ann_world).1
  = inl (HTTPException 401 "Invalid credentials")
  ∧ (login (LoginRequest.Build "Ann@x.com" "wrong") ann_world).1
    = inl (HTTPException 401 "Invalid credentials").
Proof.
  split.
  - apply (login_failures_indistinguishable
             (LoginRequest.Build "bob@x.com" "secret1") ann_world).
    + discriminate.
    + vm_compute. reflexivity.
  - apply (login_failures_indistinguishable
             (LoginRequest.Build "Ann@x.com" "wrong") ann_world)
      with (account := ann_account)
           (stored := "ab$f1001cf9ed062b356ca028a62e6ffab9ebdcc0e9e6a4998a802993d6b1fcde8a").
    + discriminate.
    + vm_compute. reflexivity.
    + vm_compute. reflexivity.
    + vm_compute. reflexivity.
Defined.

Lemma doc_lookup_name (a b c d e : value) :
  ({[ "name" := a; "email" := b; "password_hash" := c;
      "created_at" := d; "updated_at" := e ]} : document) !! "name" = Some a.
Proof. apply lookup_insert_eq. Qed.

Lemma doc_lookup_email (a b c d e : value) :
  ({[ "name" := a; "email" := b; "password_hash" := c;
      "created_at" := d; "updated_at" := e ]} : document) !! "email" = Some b.
Proof. rewrite lookup_insert_ne by done. apply lookup_insert_eq. Qed.

(* What a successful signup leaves behind and hands back. *)
Lemma signup_success req w result w' :
  signup req w = (inr result, w') →
  ∃ d record created updated,
    db w = Some d
    ∧ found (List.find (matches {[ "email" := VStr (SignupRequest.email req) ]})
                       (default [] (d !! "user"))) = false
    ∧ result = {[ "user_id" := VStr (oids w 0);
                  "name" := VStr (strip (SignupRequest.name req));
                  "email" := VStr (lower (SignupRequest.email req)) ]}
    ∧ users_of w'
      = (users_of w ++
         [ <["_id" := VObjectId (oids w 0)]>
             ({[ "name" := VStr (strip (SignupRequest.name req));
                 "email" := VStr (lower (SignupRequest.email req));
                 "password_hash" := VStr record;
                 "created_at" := VDatetime created;
                 "updated_at" := VDatetime updated ]} : document) ])%list.
Proof.
  unfold signup, get_db, mbind, M_bind. cbn [fst snd].
  destruct (db w) as [d|] eqn:Ed; [|done].
  unfold find_one at 1. rewrite Ed.
  destruct (found _) eqn:Ef; [done|].
  rewrite hash_password_fresh.
  unfold now_utc, insert_one, after_urandom. cbn [db clock oids entropy log].
  unfold getitem. rewrite doc_lookup_name, doc_lookup_email.
  unfold mret, M_ret. intros [= <- <-].
  eexists d, _, _, _. split; [done|]. split; [exact Ef|]. split; [done|].
  unfold users_of. rewrite Ed. cbn [db from_option id].
  by rewrite lookup_insert_eq.
Qed.

Lemma matches_email e (doc : document) :
  matches {[ "email" := VStr e ]} doc = bool_decide (doc !! "email" = Some (VStr e)).
Proof.
  unfold matches. rewrite map_to_list_singleton. cbn [forallb fst snd].
  by rewrite andb_true_r.
Qed.

Lemma found_matching e (l : list document) (account : document) :
  In account l → account !! "email" = Some (VStr e) →
  found (List.find (matches {[ "email" := VStr e ]}) l) = true.
Proof.
  intros Hin He.
  destruct (List.find _ l) as [u|] eqn:Ef.
  - apply find_some in Ef as [_ Hu]. rewrite matches_email in Hu.
    apply bool_decide_eq_true in Hu. cbn [found].
    case_bool_decide as Hempty; [|done].
    subst u. by rewrite lookup_empty in Hu.
  - apply (find_none _ _ Ef) in Hin. rewrite matches_email in Hin.
    by apply bool_decide_eq_false in Hin.
Qed.

(* The guard of signup works on the email exactly as it was sent. *)
Lemma signup_duplicate_exact req w account :
  db w ≠ None → In account (users_of w) →
  account !! "email" = Some (VStr (SignupRequest.email req)) →
  (signup req w).1 = inl (HTTPException 400 "Email already registered")
  ∧ db (signup req w).2 = db w.
Proof.
  intros Hdb Hin He.
  assert (∃ w', signup req w
                = (inl (HTTPException 400 "Email already registered"), w')
                ∧ db w' = db w) as (w' & -> & Hw); [|done].
  unfold signup, get_db, mbind, M_bind. cbn [fst snd].
  unfold users_of in Hin.
  destruct (db w) as [d|] eqn:Ed; [clear Hdb|done].
  unfold find_one. rewrite Ed.
  cbn [from_option id] in Hin.
  rewrite (found_matching _ _ _ Hin He).
  eexists. split; [reflexivity|done].
Qed.

Lemma signup_proceeds req w d :
  db w = Some d →
  found (List.find (matches {[ "email" := VStr (SignupRequest.email req) ]})
                   (default [] (d !! "user"))) = false →
  (signup req w).1
  = inr {[ "user_id" := VStr (oids w 0);
           "name" := VStr (strip (SignupRequest.name req));
           "email" := VStr (lower (SignupRequest.email req)) ]}.
Proof.
  intros Ed Ef.
  unfold signup, get_db, mbind, M_bind. cbn [fst snd].
  rewrite Ed. unfold find_one at 1. rewrite Ed, Ef.
  rewrite hash_password_fresh.
  unfold now_utc, insert_one, after_urandom. cbn [db clock oids entropy log].
  unfold getitem. by rewrite doc_lookup_name, doc_lookup_email.
Qed.

Lemma not_found_other e (l : list document) :
  (∀ account, In account l → account !! "email" ≠ Some (VStr e)) →
  found (List.find (matches {[ "email" := VStr e ]}) l) = false.
Proof.
  intros H. destruct (List.find _ l) as [u|] eqn:Ef; [|done].
  apply find_some in Ef as [Hin Hu]. rewrite matches_email in Hu.
  apply bool_decide_eq_true in Hu. by destruct (H u Hin).
Qed.

(* The guard lets through every email that no account holds letter for
   letter, whatever its lowercase form. *)
Lemma signup_guard_exact_only req w d :
  db w = Some d →
  (∀ account, In account (default [] (d !! "user")) →
              account !! "email" ≠ Some (VStr (SignupRequest.email req))) →
  ∃ result, (signup req w).1 = inr result
            ∧ result !! "email" = Some (VStr (lower (SignupRequest.email req))).
Proof.
  intros Ed H. eexists. split.
  - apply (signup_proceeds req w d Ed), not_found_other, H.
  - rewrite !lookup_insert_ne by done. apply lookup_singleton_eq.
Qed.

(** C1: the code departs from the claim.  With Ann registered under
    ann@x.com, a signup for ANN@x.com is looked up as sent, finds nobody,
    succeeds, and leaves two accounts with the email ann@x.com. *)
Theorem signup_accepts_email_in_other_case :
  let req := SignupRequest.Build "Ann B" "ANN@x.com" "other" in
  (signup req ann_world).1
  = inr {[ "user_id" := VStr "65a000000000000000000001";
           "name" := VStr "Ann B";
           "email" := VStr "ann@x.com" ]}
  ∧ map (λ account : document, account !! "email")
        (users_of (signup req ann_world).2)
    = [Some (VStr "ann@x.com"); Some (VStr "ann@x.com")].
Proof. split; vm_compute; reflexivity. Qed.

(* The same request with the email as it is stored is refused. *)
Example signup_refuses_email_as_stored :
  (signup (SignupRequest.Build "Ann B" "ann@x.com" "other") ann_world).1
  = inl (HTTPException 400 "Email already registered").
Proof. vm_compute. reflexivity. Qed.

(** C9. A successful signup returns exactly three fields: the identifier
    the store gave the new account, its name and its email.  There is no
    field for the credential record, and the value returned is the same
    whatever the password was. *)
Theorem signup_returns_public_fields req w result :
  (signup req w).1 = inr result →
  (∃ account oid,
      users_of (signup req w).2 = (users_of w ++ [account])%list
      ∧ account !! "_id" = Some (VObjectId oid)
      ∧ result !! "user_id" = Some (VStr oid)
      ∧ result !! "name" = account !! "name"
      ∧ result !! "email" = account !! "email")
  ∧ result = {[ "user_id" := VStr (oids w 0);
                "name" := VStr (strip (SignupRequest.name req));
                "email" := VStr (lower (SignupRequest.email req)) ]}
  ∧ dom result = {[ "user_id"; "name"; "email" ]}
  ∧ result !! "password_hash" = None
  ∧ ∀ other,
      (signup (SignupRequest.Build (SignupRequest.name req)
                                   (SignupRequest.email req) other) w).1
      = inr result.
Proof.
  destruct (signup req w) as [[e|r] w'] eqn:E; cbn [fst snd]; [done|].
  intros [= ->].
  apply signup_success in E as (d & record & created & updated & Ed & Ef & -> & Hu).
  split; [|split; [done|split; [|split]]].
  - eexists _, (oids w 0). split; [exact Hu|].
    split; [apply lookup_insert_eq|].
    split; [apply lookup_insert_eq|].
    split.
    + rewrite lookup_insert_ne by done. rewrite lookup_insert_eq.
      rewrite lookup_insert_ne by done. by rewrite lookup_insert_eq.
    + rewrite !lookup_insert_ne by done.
      by rewrite lookup_singleton_eq, lookup_insert_eq.
  - rewrite !dom_insert_L, dom_singleton_L. set_solver.
  - rewrite !lookup_insert_ne by done. by apply lookup_singleton_ne.
  - intros other. by rewrite (signup_proceeds _ w d).
Qed.

Lemma signup_returns_public_fields_witness :
  let result : document :=
    {[ "user_id" := VStr "65a000000000000000000000";
       "name" := VStr "Ann";
       "email" := VStr "ann@x.com" ]} in
  dom result = {[ "user_id"; "name"; "email" ]}
  ∧ result !! "password_hash" = None
  ∧ ∀ other,
      (signup (SignupRequest.Build "  Ann " "ANN@x.com" other) sample_world).1
      = inr result.
Proof.
  intros result.
  destruct (signup_returns_public_fields
              (SignupRequest.Build "  Ann " "ANN@x.com" "secret1")
              sample_world result) as (_ & _ & Hdom & Hnone & Hother).
  - vm_compute. reflexivity.
  - exact (conj Hdom (conj Hnone Hother)).
Defined.

(** * The model against known values of the libraries *)

Example sha256_abc :
  sha256_hex "abc"
  = "ba7816bf8f01cfea414140de5dae2223b00361a396177a9cb410ff61f20015ad".
Proof. vm_compute. reflexivity. Qed.

Example sha256_empty :
  sha256_hex ""
  = "e3b0c44298fc1c149afbf4c8996fb92427ae41e4649b934ca495991b7852b855".
Proof. vm_compute. reflexivity. Qed.

Example sha256_two_blocks :
  sha256_hex "abcdbcdecdefdefgefghfghighijhijkijkljklmklmnlmnomnopnopq"
  = "248d6a61d20638b8e5c026930c3e6039a33ce45964ff2167f6ecedd419db06c1".
Proof. vm_compute. reflexivity. Qed.

Example sha256_constants :
  nth 0 SHA256.K 0%Z = 0x428a2f98%Z ∧ nth 63 SHA256.K 0%Z = 0xc67178f2%Z
  ∧ nth 0 SHA256.H0 0%Z = 0x6a09e667%Z ∧ nth 7 SHA256.H0 0%Z = 0x5be0cd19%Z.
Proof. repeat split. Qed.

Example split_examples :
  split "$" "a$b$" = ["a"; "b"; ""] ∧ split "$" "" = [""]
  ∧ split "$" "abc" = ["abc"] ∧ split "$" "$h" = [""; "h"].
Proof. repeat split. Qed.

Example strip_lower_examples :
  strip "  Ann B  " = "Ann B" ∧ lower "ANN@x.Com" = "ann@x.com".
Proof. split; vm_compute; reflexivity. Qed.

Example token_urlsafe_example :
  (token_urlsafe 24 sample_world).1 = inr "AAECAwQFBgcICQoLDA0ODxAREhMUFRYX".
Proof. vm_compute. reflexivity. Qed.

Example str_datetime_example :
  str_datetime (Datetime 2026 1 2 3 4 5 7 true) = "2026-01-02 03:04:05.000007+00:00".
Proof. vm_compute. reflexivity. Qed.

(* signup("Ann", "ANN@x.com", "secret1"), then the two logins of the spec. *)
Example end_to_end :
  let w1 := (signup (SignupRequest.Build "Ann" "ANN@x.com" "secret1") sample_world).2 in
  (token <$> sum_rect (λ _, option login_response) (λ _, None) Some
     (login (LoginRequest.Build "ann@x.com" "secret1") w1).1)
  = Some "EBESExQVFhcYGRobHB0eHyAhIiMkJSYn"
  ∧ (login (LoginRequest.Build "ann@x.com" "wrong") w1).1
    = inl (HTTPException 401 "Invalid credentials").
Proof. split; vm_compute; reflexivity. Qed.

(** * Further properties of the password hasher *)

Lemma string_length_app a b :
  String.length (a ++ b) = String.length a + String.length b.
Proof. induction a as [|c a IH]; simpl; [done|]. by rewrite IH. Qed.

Lemma string_length_of_list l :
  String.length (string_of_list_ascii l) = List.length l.
Proof. induction l as [|c l IH]; simpl; [done|]. by rewrite IH. Qed.

Lemma hexlify_length bs : String.length (hexlify bs) = 2 * List.length bs.
Proof.
  unfold hexlify. rewrite string_length_of_list.
  induction bs as [|b bs IH]; [done|].
  cbn [map concat List.length]. rewrite length_app, IH.
  unfold SHA256.hex_of. rewrite length_map, length_seq. lia.
Qed.

Lemma hexlify_is_hex bs :
  Forall (λ c, is_hex c = true) (list_ascii_of_string (hexlify bs)).
Proof.
  unfold hexlify. rewrite list_ascii_of_string_of_list_ascii.
  apply Forall_concat_hex. intros b. apply hex_of_is_hex.
Qed.

Lemma fresh_salt_length w : String.length (fresh_salt w) = 32.
Proof. unfold fresh_salt. by rewrite hexlify_length, length_map, length_seq. Qed.

Lemma split_one_inv sep s a :
  split sep s = [a] → s = a ∧ count_char sep a = 0.
Proof.
  intros E. pose proof (split_length sep s) as Hl. rewrite E in Hl.
  simpl in Hl. assert (count_char sep s = 0) as H0 by lia.
  rewrite (split_no_sep _ _ H0) in E. by injection E as ->.
Qed.

(* Two pieces come from one delimiter between them. *)
Lemma split_two_inv sep s a b :
  split sep s = [a; b] →
  s = a ++ String sep b ∧ count_char sep a = 0 ∧ count_char sep b = 0.
Proof.
  revert a. induction s as [|c s IH]; intros a E; [done|].
  cbn [split] in E. destruct (Ascii.eqb_spec c sep) as [->|Hne].
  - injection E as <- E. by apply split_one_inv in E as [-> H0].
  - destruct (split sep s) as [|piece pieces] eqn:Es; [done|].
    injection E as <- ->. destruct (IH piece eq_refl) as (-> & Ha & Hb).
    split; [done|]. split; [|done].
    cbn [count_char]. rewrite Ha.
    by destruct (Ascii.eqb_spec c sep).
Qed.

Lemma count_one_inv sep s :
  count_char sep s = 1 →
  ∃ a b, s = a ++ String sep b ∧ count_char sep a = 0 ∧ count_char sep b = 0.
Proof.
  intros H. pose proof (split_length sep s) as Hl. rewrite H in Hl.
  destruct (split sep s) as [|a [|b [|c l]]] eqn:E; try discriminate.
  exists a, b. by apply split_two_inv.
Qed.

Lemma verify_empty_salt password h w :
  count_char DELIM h = 0 →
  (verify_password password ("$" ++ h) w).1 = inr false.
Proof.
  intros H0. unfold verify_password.
  pose proof (split_record "" h eq_refl H0) as E. unfold DELIM in E.
  change ("" ++ "$" ++ h) with ("$" ++ h) in E.
  rewrite E. cbn [unpack2]. unfold mbind, M_bind.
  rewrite hash_password_empty, hash_password_fresh. unfold mret, M_ret.
  cbn [fst]. f_equal. f_equal.
  apply (eqb_head_differs (fresh_salt w));
    auto using fresh_salt_truthy, fresh_salt_no_delim.
Qed.

(** X1. The record [hash_password] makes with the salt left out is 32
    hexadecimal characters, the delimiter, and 64 hexadecimal characters,
    and splits on the delimiter into exactly that salt and the digest of
    salt followed by password. *)
Theorem fresh_record_wellformed password w :
  ∃ salt digest,
    (hash_password password None w).1 = inr (salt ++ "$" ++ digest)
    ∧ split "$" (salt ++ "$" ++ digest) = [salt; digest]
    ∧ String.length salt = 32 ∧ String.length digest = 64
    ∧ Forall (λ c, is_hex c = true) (list_ascii_of_string salt)
    ∧ Forall (λ c, is_hex c = true) (list_ascii_of_string digest)
    ∧ digest = sha256_hex (salt ++ password).
Proof.
  exists (fresh_salt w), (sha256_hex (fresh_salt w ++ password)).
  rewrite hash_password_fresh. split; [done|]. split.
  - apply (split_record (fresh_salt w));
      auto using fresh_salt_no_delim, sha256_hex_no_delim.
  - split; [apply fresh_salt_length|]. split; [apply hexdigest_length|].
    split; [apply hexlify_is_hex|]. split; [apply hexdigest_is_hex|done].
Qed.

(** X2. [verify_password] answers True exactly on the records made of a
    non-empty salt without delimiter, the delimiter, and the SHA-256 hex
    digest of that salt followed by the password. *)
Theorem verify_password_true_iff password stored w :
  (verify_password password stored w).1 = inr true
  ↔ ∃ salt, salt ≠ "" ∧ count_char DELIM salt = 0
            ∧ stored = salt ++ "$" ++ sha256_hex (salt ++ password).
Proof.
  split.
  - intros H.
    destruct (decide (count_char DELIM stored = 1)) as [H1|Hn].
    2:{ rewrite verify_password_malformed in H by exact Hn.
        cbn [fst] in H. discriminate H. }
    apply count_one_inv in H1 as (salt & h & -> & Hs & Hh).
    change (String DELIM h) with ("$" ++ h) in *.
    destruct (decide (salt = "")) as [->|Hne].
    + change ("" ++ "$" ++ h) with ("$" ++ h) in H.
      rewrite verify_empty_salt in H by exact Hh. discriminate H.
    + rewrite (verify_password_wellformed _ _ _ _ Hne Hs Hh) in H.
      cbn [fst] in H.
      assert (String.eqb (sha256_hex (salt ++ password)) h = true) as E
        by congruence.
      apply String.eqb_eq in E. exists salt. rewrite E.
      split; [exact Hne|]. split; [exact Hs|]. reflexivity.
  - intros (salt & Hne & Hs & ->).
    rewrite verify_password_wellformed; auto using sha256_hex_no_delim.
    rewrite String.eqb_refl. reflexivity.
Qed.

(* What hash_password and verify_password leave of the state. *)
Lemma hash_password_result password salt w :
  ∃ record, (hash_password password salt w).1 = inr record
            ∧ db (hash_password password salt w).2 = db w
            ∧ clock (hash_password password salt w).2 = clock w
            ∧ oids (hash_password password salt w).2 = oids w.
Proof.
  destruct salt as [s|]; [destruct (decide (s = "")) as [->|Hne]|].
  - rewrite hash_password_empty, hash_password_fresh. by eexists.
  - rewrite (hash_password_given _ _ _ Hne). by eexists.
  - rewrite hash_password_fresh. by eexists.
Qed.

Lemma verify_password_effects password stored w :
  (∃ b, (verify_password password stored w).1 = inr b)
  ∧ db (verify_password password stored w).2 = db w
  ∧ clock (verify_password password stored w).2 = clock w
  ∧ oids (verify_password password stored w).2 = oids w
  ∧ (salt_of stored ≠ "" → (verify_password password stored w).2 = w).
Proof.
  unfold verify_password, salt_of. unfold DELIM.
  destruct (split "$" stored) as [|salt [|h [|x l]]] eqn:Es; cbn [unpack2 hd];
    try (by repeat split; eauto).
  unfold mbind, M_bind.
  destruct (hash_password_result password (Some salt) w) as (r & Hr & Hd & Hc & Ho).
  destruct (hash_password password (Some salt) w) as [[e|r'] w1] eqn:Eh;
    cbn [fst snd] in *; [discriminate|].
  unfold mret, M_ret. cbn [fst snd].
  repeat split; eauto.
  intros Hne. rewrite (hash_password_given _ _ _ Hne) in Eh. congruence.
Qed.

(** X3. [verify_password] has one effect at most.  It never touches the
    store, the clock or the supply of identifiers, and it leaves the whole
    state as it was, except on a record made of an empty salt, one
    delimiter and no further delimiter: there the recomputation reads 16
    bytes of entropy. *)
Theorem verify_password_state password stored w :
  (verify_password password stored w).2
  = (if bool_decide (count_char DELIM stored = 1 ∧ salt_of stored = "")
     then after_urandom SALT_LEN w
     else w)
  ∧ db (verify_password password stored w).2 = db w
  ∧ clock (verify_password password stored w).2 = clock w
  ∧ oids (verify_password password stored w).2 = oids w.
Proof.
  split;
    [|by destruct (verify_password_effects password stored w)
           as (_ & Hd & Hc & Ho & _)].
  destruct (decide (count_char DELIM stored = 1)) as [H1|Hn].
  - apply count_one_inv in H1 as (salt & h & -> & Hs & Hh).
    change (String DELIM h) with ("$" ++ h).
    assert (count_char DELIM (salt ++ "$" ++ h) = 1) as Hc.
    { rewrite count_char_app. change ("$" ++ h) with (String DELIM h).
      cbn [count_char]. rewrite Ascii.eqb_refl. lia. }
    rewrite (salt_of_record _ _ Hs).
    destruct (decide (salt = "")) as [->|Hne].
    + rewrite bool_decide_eq_true_2 by done.
      change ("" ++ "$" ++ h) with ("$" ++ h).
      by rewrite (verify_password_draws_salt _ _ _ Hh).
    + rewrite bool_decide_eq_false_2 by (intros [_ ?]; done).
      by rewrite (verify_password_wellformed _ _ _ _ Hne Hs Hh).
  - rewrite bool_decide_eq_false_2 by (intros [? _]; done).
    by rewrite (verify_password_malformed _ _ _ Hn).
Qed.

(** * Further properties of login *)

Lemma lower_char_idem c : lower_char (lower_char c) = lower_char c.
Proof. destruct c as [[] [] [] [] [] [] [] []]; reflexivity. Qed.

Lemma lower_idem s : lower (lower s) = lower s.
Proof.
  unfold lower. rewrite list_ascii_of_string_of_list_ascii, map_map.
  f_equal. apply map_ext. intros c. apply lower_char_idem.
Qed.

Lemma b64url_char_urlsafe n : is_urlsafe (b64url_char n) = true.
Proof.
  unfold b64url_char, is_urlsafe.
  set (alphabet := list_ascii_of_string _).
  apply existsb_exists. exists (nth (Z.to_nat n) alphabet "A"%char).
  split; [|apply Ascii.eqb_refl].
  destruct (Nat.lt_ge_cases (Z.to_nat n) (List.length alphabet)) as [Hlt|Hge].
  - by apply nth_In.
  - rewrite (nth_overflow _ _ Hge). by left.
Qed.

(* Three bytes at a time give four characters at a time. *)
Lemma b64url_triples k : ∀ bs,
  List.length bs = 3 * k →
  List.length (b64url bs) = 4 * k
  ∧ Forall (λ c, is_urlsafe c = true) (b64url bs).
Proof.
  induction k as [|k IH]; intros bs Hl.
  - destruct bs; [by split|discriminate].
  - destruct bs as [|b0 [|b1 [|b2 rest]]]; try (cbn in Hl; lia).
    destruct (IH rest) as [Hlen Hall]; [cbn in Hl; lia|].
    cbn [b64url]. split; [cbn [List.length]; lia|].
    repeat (apply Forall_cons; split; [apply b64url_char_urlsafe|]).
    exact Hall.
Qed.

(* What a successful login rests on. *)
Lemma login_success_inv req w resp :
  (login req w).1 = inr resp →
  ∃ d account stored w1 bs uid name email,
    db w = Some d
    ∧ List.find (matches {[ "email" := VStr (lower (LoginRequest.email req)) ]})
                (default [] (d !! "user")) = Some account
    ∧ default (VStr "") (account !! "password_hash") = VStr stored
    ∧ (verify_password (LoginRequest.password req) stored w1).1 = inr true
    ∧ List.length bs = 24
    ∧ account !! "_id" = Some uid
    ∧ account !! "name" = Some name
    ∧ account !! "email" = Some email
    ∧ resp = LoginResponse
               (string_of_list_ascii (b64url (map SHA256.byteZ bs)))
               {[ "id" := VStr (str uid); "name" := name; "email" := email ]}.
Proof.
  unfold login, get_db, mbind, M_bind. cbn [fst snd].
  destruct (db w) as [d|] eqn:Ed; [|discriminate].
  unfold find_one at 1. rewrite Ed.
  destruct (List.find _ _) as [account|] eqn:Ef; [|discriminate].
  destruct (negb (found (Some account))); [discriminate|].
  destruct (default (VStr "") (account !! "password_hash")) as [stored| |] eqn:Eh;
    try discriminate.
  set (w1 := World _ _ _ _ _).
  destruct (verify_password _ stored w1) as [[e|[]] w2] eqn:Ev;
    try discriminate.
  cbn [negb]. unfold token_urlsafe, urandom, mbind, M_bind, mret, M_ret.
  unfold getitem.
  destruct (account !! "_id") as [uid|] eqn:Eid; [|discriminate].
  destruct (account !! "name") as [name|] eqn:En; [|discriminate].
  destruct (account !! "email") as [email|] eqn:Ee; [|discriminate].
  unfold mret, M_ret. cbn [fst]. intros H.
  exists d, account, stored, w1, (map (entropy w2) (seq 0 24)), uid, name, email.
  rewrite Ev. cbn [fst].
  repeat (split; [first [reflexivity | assumption]|]).
  congruence.
Qed.

(** X4. The token of a successful login is 32 characters long, each a
    letter, a digit, '-' or '_'. *)
Theorem login_token_urlsafe req w resp :
  (login req w).1 = inr resp →
  String.length (token resp) = 32
  ∧ Forall (λ c, is_urlsafe c = true) (list_ascii_of_string (token resp)).
Proof.
  intros H.
  apply login_success_inv in H
    as (d & account & stored & w1 & bs & uid & name & email & _ & _ & _ & _
        & Hl & _ & _ & _ & ->).
  cbn [token]. rewrite string_length_of_list, list_ascii_of_string_of_list_ascii.
  apply (b64url_triples 8). by rewrite length_map.
Qed.

Lemma login_token_urlsafe_witness :
  String.length "AAECAwQFBgcICQoLDA0ODxAREhMUFRYX" = 32.
Proof.
  apply (login_token_urlsafe (LoginRequest.Build "ANN@x.com" "secret1") ann_world
           (LoginResponse "AAECAwQFBgcICQoLDA0ODxAREhMUFRYX"
              {[ "id" := VStr "65a000000000000000000000";
                 "name" := VStr "Ann"; "email" := VStr "ann@x.com" ]})).
  vm_compute. reflexivity.
Defined.

(** X5. What a successful login hands back about the user is exactly
    three fields, the string of the identifier, the name and the email of
    the first account stored under the lowercased email, whose record the
    password verifies against; the record itself is not among them. *)
Theorem login_returns_public_fields req w resp :
  (login req w).1 = inr resp →
  ∃ account stored w1,
    List.find (matches {[ "email" := VStr (lower (LoginRequest.email req)) ]})
              (users_of w) = Some account
    ∧ account !! "password_hash" = Some (VStr stored)
    ∧ (verify_password (LoginRequest.password req) stored w1).1 = inr true
    ∧ dom (user resp) = {[ "id"; "name"; "email" ]}
    ∧ user resp !! "id" = (λ v, VStr (str v)) <$> account !! "_id"
    ∧ user resp !! "name" = account !! "name"
    ∧ user resp !! "email" = Some (VStr (lower (LoginRequest.email req)))
    ∧ user resp !! "password_hash" = None.
Proof.
  intros H.
  apply login_success_inv in H
    as (d & account & stored & w1 & bs & uid & name & email & Ed & Ef & Eh & Ev
        & _ & Eid & En & Ee & ->).
  exists account, stored, w1. unfold users_of. rewrite Ed. cbn [from_option id].
  split; [exact Ef|]. split.
  { destruct (account !! "password_hash") as [v|] eqn:E; cbn in Eh.
    - by subst v.
    - injection Eh as <-.
      rewrite verify_password_malformed in Ev by (cbn; lia). discriminate. }
  split; [exact Ev|]. cbn [user].
  split; [rewrite !dom_insert_L, dom_singleton_L; set_solver|].
  split; [rewrite Eid; apply lookup_insert_eq|].
  split; [rewrite En, lookup_insert_ne by done; apply lookup_insert_eq|].
  split.
  - rewrite !lookup_insert_ne by done. rewrite lookup_singleton_eq.
    apply find_some in Ef as [_ Hm]. rewrite matches_email in Hm.
    apply bool_decide_eq_true in Hm. congruence.
  - rewrite !lookup_insert_ne by done. by apply lookup_singleton_ne.
Qed.

Lemma login_returns_public_fields_witness :
  ∃ account stored w1,
    List.find (matches {[ "email" := VStr (lower "ANN@x.com") ]})
              (users_of ann_world) = Some account
    ∧ account !! "password_hash" = Some (VStr stored)
    ∧ (verify_password "secret1" stored w1).1 = inr true
    ∧ dom ({[ "id" := VStr "65a000000000000000000000";
              "name" := VStr "Ann"; "email" := VStr "ann@x.com" ]} : document)
      = {[ "id"; "name"; "email" ]}.
Proof.
  destruct (login_returns_public_fields
              (LoginRequest.Build "ANN@x.com" "secret1") ann_world
              (LoginResponse "AAECAwQFBgcICQoLDA0ODxAREhMUFRYX"
                 {[ "id" := VStr "65a000000000000000000000";
                    "name" := VStr "Ann"; "email" := VStr "ann@x.com" ]}))
    as (account & stored & w1 & H1 & H2 & H3 & H4 & _).
  - vm_compute. reflexivity.
  - exists account, stored, w1. repeat split; assumption.
Defined.

Lemma find_none_email e (l : list document) :
  email_free e l → List.find (matches {[ "email" := VStr e ]}) l = None.
Proof.
  intros H. destruct (List.find _ l) as [u|] eqn:Ef; [|done].
  apply find_some in Ef as [Hin Hu]. rewrite matches_email in Hu.
  apply bool_decide_eq_true in Hu. by destruct (H u Hin).
Qed.

Lemma find_app_last {A} (f : A → bool) l x :
  List.find f l = None → f x = true → List.find f (l ++ [x])%list = Some x.
Proof.
  induction l as [|y l IH]; cbn [List.find app]; intros Hn Hx.
  - by rewrite Hx.
  - destruct (f y); [discriminate|]. by apply IH.
Qed.

(* The state of the store after a signup that passes the guard. *)
Lemma signup_stores req w d :
  db w = Some d →
  found (List.find (matches {[ "email" := VStr (SignupRequest.email req) ]})
                   (default [] (d !! "user"))) = false →
  db (signup req w).2
  = Some (<["user" := (default [] (d !! "user") ++ [new_account req w])%list]> d).
Proof.
  intros Ed Ef.
  unfold signup, get_db, mbind, M_bind. cbn [fst snd].
  rewrite Ed. unfold find_one at 1. rewrite Ed, Ef.
  rewrite hash_password_fresh.
  unfold now_utc, insert_one, after_urandom. cbn [db clock oids entropy log].
  unfold getitem. rewrite doc_lookup_name, doc_lookup_email.
  reflexivity.
Qed.

(* Login goes through on an account whose record was made for the password. *)
Lemma login_accepts req w d account salt uid name email :
  db w = Some d →
  List.find (matches {[ "email" := VStr (lower (LoginRequest.email req)) ]})
            (default [] (d !! "user")) = Some account →
  salt ≠ "" → count_char DELIM salt = 0 →
  account !! "password_hash"
  = Some (VStr (salt ++ "$" ++ sha256_hex (salt ++ LoginRequest.password req))) →
  account !! "_id" = Some uid →
  account !! "name" = Some name →
  account !! "email" = Some email →
  ∃ tok, (login req w).1
         = inr (LoginResponse tok
                  {[ "id" := VStr (str uid); "name" := name; "email" := email ]}).
Proof.
  intros Ed Ef Hne Hs Hh Hid Hn He.
  unfold login, get_db, mbind, M_bind. cbn [fst snd].
  rewrite Ed. unfold find_one at 1. rewrite Ed, Ef.
  assert (found (Some account) = true) as ->.
  { cbn [found]. case_bool_decide as Hempty; [|done].
    subst account. by rewrite lookup_empty in Hid. }
  cbn [negb]. rewrite Hh. cbn [from_option id].
  rewrite verify_password_wellformed by auto using sha256_hex_no_delim.
  rewrite String.eqb_refl. cbn [negb].
  unfold token_urlsafe, urandom, mbind, M_bind, mret, M_ret, getitem.
  rewrite Hid, Hn, He. unfold mret, M_ret. cbn [fst]. by eexists.
Qed.

(* What login leaves of the state. *)
Lemma login_effects req w :
  db (login req w).2 = db w
  ∧ clock (login req w).2 = clock w
  ∧ oids (login req w).2 = oids w.
Proof.
  destruct (login req w) as [res w'] eqn:E. cbn [snd]. revert E.
  assert (∀ w1 e, db w1 = db w → clock w1 = clock w → oids w1 = oids w →
                  @raise login_response e w1 = (res, w') →
                  db w' = db w ∧ clock w' = clock w ∧ oids w' = oids w) as stop.
  { intros w1 e ? ? ? [= _ <-]. done. }
  unfold login, get_db, mbind, M_bind. cbn [fst snd].
  destruct (db w) as [d|] eqn:Ed; [|by apply stop].
  unfold find_one. rewrite Ed.
  set (w1 := World _ _ _ _ _).
  assert (db w1 = Some d ∧ clock w1 = clock w ∧ oids w1 = oids w)
    as (Hd1 & Hc1 & Ho1) by done.
  clearbody w1.
  destruct (List.find _ _) as [account|]; [|by apply stop].
  destruct (negb (found (Some account))); [by apply stop|].
  destruct (default (VStr "") (account !! "password_hash")) as [stored| |];
    try (by apply stop).
  destruct (verify_password_effects (LoginRequest.password req) stored w1)
    as (_ & Hd2 & Hc2 & Ho2 & _).
  destruct (verify_password _ stored w1) as [[e|ok] w2]; cbn [snd] in *.
  { intros [= _ <-]. split; [|split]; congruence. }
  destruct ok; cbn [negb]; [|apply stop; congruence].
  unfold token_urlsafe, urandom, mbind, M_bind, mret, M_ret, getitem, raise.
  destruct (account !! "_id"), (account !! "name"), (account !! "email");
    intros [= _ <-]; cbn [db clock oids]; (split; [|split]; congruence).
Qed.

(** X6. Login only reads: whatever the request and the outcome, the
    store, the clock and the supply of identifiers are as they were. *)
Theorem login_reads_only req w :
  db (login req w).2 = db w
  ∧ clock (login req w).2 = clock w
  ∧ oids (login req w).2 = oids w.
Proof. apply login_effects. Qed.

(** X7. Login does not see the letter case of the email: a request and
    the same request with the email lowercased run alike, to the same
    outcome and the same state. *)
Theorem login_ignores_email_case email password w :
  login (LoginRequest.Build email password) w
  = login (LoginRequest.Build (lower email) password) w.
Proof.
  unfold login. cbn [LoginRequest.email LoginRequest.password].
  by rewrite lower_idem.
Qed.

(** X8. Login fails closed on an account it cannot verify: when the
    account found has no [password_hash] field, or a record that does not
    hold exactly one delimiter, the outcome is 401 "Invalid credentials",
    not an exception of the parsing. *)
Theorem login_unverifiable_account req w d account :
  db w = Some d →
  List.find (matches {[ "email" := VStr (lower (LoginRequest.email req)) ]})
            (default [] (d !! "user")) = Some account →
  (account !! "password_hash" = None
   ∨ ∃ stored, account !! "password_hash" = Some (VStr stored)
               ∧ count_char DELIM stored ≠ 1) →
  (login req w).1 = inl (HTTPException 401 "Invalid credentials").
Proof.
  intros Ed Ef Hrec.
  unfold login, get_db, mbind, M_bind. cbn [fst snd].
  rewrite Ed. unfold find_one at 1. rewrite Ed, Ef.
  destruct (negb (found (Some account))); [reflexivity|].
  destruct Hrec as [-> | (stored & -> & Hc)]; cbn [from_option id].
  - rewrite verify_password_malformed by (cbn; lia). reflexivity.
  - rewrite verify_password_malformed by exact Hc. reflexivity.
Qed.

Lemma login_unverifiable_account_witness :
  (login (LoginRequest.Build "ann@x.com" "secret1")
         (World (Some {[ "user" := [ <["password_hash" := VStr "legacy"]> ann_account ] ]})
                sample_entropy (clock sample_world) (oids sample_world) [])).1
  = inl (HTTPException 401 "Invalid credentials").
Proof.
  apply (login_unverifiable_account _ _
           {[ "user" := [ <["password_hash" := VStr "legacy"]> ann_account ] ]}
           (<["password_hash" := VStr "legacy"]> ann_account)).
  - reflexivity.
  - vm_compute. reflexivity.
  - right. exists "legacy". split; [vm_compute; reflexivity|]. vm_compute. lia.
Defined.

(** X9. Signup, then login.  In a configured store where no account is
    held under the email as sent nor under its lowercase form, a signup
    followed by a login with the same password, and the email in any
    letter case, succeeds and returns the identifier the signup returned,
    the stripped name and the lowercased email. *)
Theorem signup_then_login req email' w d :
  db w = Some d →
  email_free (SignupRequest.email req) (default [] (d !! "user")) →
  email_free (lower (SignupRequest.email req)) (default [] (d !! "user")) →
  lower email' = lower (SignupRequest.email req) →
  (signup req w).1
  = inr {[ "user_id" := VStr (oids w 0);
           "name" := VStr (strip (SignupRequest.name req));
           "email" := VStr (lower (SignupRequest.email req)) ]}
  ∧ ∃ tok,
      (login (LoginRequest.Build email' (SignupRequest.password req))
             (signup req w).2).1
      = inr (LoginResponse tok
               {[ "id" := VStr (oids w 0);
                  "name" := VStr (strip (SignupRequest.name req));
                  "email" := VStr (lower (SignupRequest.email req)) ]}).
Proof.
  intros Ed Hfree Hlow He.
  assert (found (List.find
                   (matches {[ "email" := VStr (SignupRequest.email req) ]})
                   (default [] (d !! "user"))) = false) as Hguard
    by (by rewrite find_none_email).
  split; [by apply (signup_proceeds req w d)|].
  pose proof (signup_stores req w d Ed Hguard) as Hdb.
  apply (login_accepts _ _ _ (new_account req w) (fresh_salt w)
           (VObjectId (oids w 0))) with (1 := Hdb).
  - rewrite lookup_insert_eq. cbn [from_option id LoginRequest.email].
    rewrite He. apply find_app_last; [by apply find_none_email|].
    rewrite matches_email. apply bool_decide_eq_true.
    unfold new_account. rewrite !lookup_insert_ne by done.
    apply lookup_insert_eq.
  - apply fresh_salt_truthy.
  - apply fresh_salt_no_delim.
  - unfold new_account. rewrite !lookup_insert_ne by done.
    apply lookup_insert_eq.
  - apply lookup_insert_eq.
  - unfold new_account. rewrite lookup_insert_ne by done.
    apply lookup_insert_eq.
  - unfold new_account. rewrite !lookup_insert_ne by done.
    apply lookup_insert_eq.
Qed.

Lemma signup_then_login_witness :
  ∃ tok,
    (login (LoginRequest.Build "ann@X.com" "secret1")
           (signup (SignupRequest.Build " Ann " "ANN@x.com" "secret1") sample_world).2).1
    = inr (LoginResponse tok
             {[ "id" := VStr (oids sample_world 0);
                "name" := VStr (strip " Ann ");
                "email" := VStr (lower "ANN@x.com") ]}).
Proof.
  apply (signup_then_login (SignupRequest.Build " Ann " "ANN@x.com" "secret1")
           "ann@X.com" sample_world ∅).
  - reflexivity.
  - intros account [].
  - intros account [].
  - vm_compute. reflexivity.
Defined.

(** * Further properties of signup *)

(** X10. A signup whose email some account holds letter for letter is
    refused with 400 "Email already registered" after the lookup alone:
    the store is unchanged, and neither entropy nor the clock nor an
    identifier was used. *)
Theorem signup_refuses_stored_email req w account :
  db w ≠ None → In account (users_of w) →
  account !! "email" = Some (VStr (SignupRequest.email req)) →
  signup req w
  = (inl (HTTPException 400 "Email already registered"),
     World (db w) (entropy w) (clock w) (oids w)
           (log w ++ [EvFindOne "user"
                        {[ "email" := VStr (SignupRequest.email req) ]}])%list).
Proof.
  intros Hdb Hin He.
  unfold signup, get_db, mbind, M_bind. cbn [fst snd].
  unfold users_of in Hin.
  destruct (db w) as [d|] eqn:Ed; [clear Hdb|done].
  unfold find_one. rewrite Ed.
  cbn [from_option id] in Hin.
  by rewrite (found_matching _ _ _ Hin He).
Qed.

Lemma signup_refuses_stored_email_witness :
  (signup (SignupRequest.Build "Ann B" "ann@x.com" "other") ann_world).1
  = inl (HTTPException 400 "Email already registered").
Proof.
  rewrite (signup_refuses_stored_email
             (SignupRequest.Build "Ann B" "ann@x.com" "other") ann_world
             ann_account).
  - reflexivity.
  - discriminate.
  - left. reflexivity.
  - vm_compute. reflexivity.
Defined.

(* A signup either leaves the store alone or appends the new account. *)
Lemma signup_db_cases req w :
  db (signup req w).2 = db w
  ∨ ∃ d, db w = Some d
         ∧ (signup req w).1
           = inr {[ "user_id" := VStr (oids w 0);
                    "name" := VStr (strip (SignupRequest.name req));
                    "email" := VStr (lower (SignupRequest.email req)) ]}
         ∧ db (signup req w).2
           = Some (<["user" := (default [] (d !! "user")
                                ++ [new_account req w])%list]> d).
Proof.
  destruct (db w) as [d|] eqn:Ed.
  - destruct (found (List.find
                       (matches {[ "email" := VStr (SignupRequest.email req) ]})
                       (default [] (d !! "user")))) eqn:Ef.
    + left. unfold signup, get_db, mbind, M_bind. cbn [fst snd].
      rewrite Ed. unfold find_one. rewrite Ed, Ef. reflexivity.
    + right. exists d. split; [done|].
      split; [by apply (signup_proceeds req w d)|by apply signup_stores].
  - left. unfold signup, get_db, mbind, M_bind. cbn [fst snd].
    by rewrite Ed.
Qed.

Lemma new_account_password_hash req w :
  new_account req w !! "password_hash"
  = Some (VStr (fresh_salt w ++ "$"
                  ++ sha256_hex (fresh_salt w ++ SignupRequest.password req))).
Proof.
  unfold new_account. rewrite !lookup_insert_ne by done. apply lookup_insert_eq.
Qed.

Lemma new_account_email req w :
  new_account req w !! "email" = Some (VStr (lower (SignupRequest.email req))).
Proof.
  unfold new_account. rewrite !lookup_insert_ne by done. apply lookup_insert_eq.
Qed.

(** X11. After a successful signup the users collection is the one
    before with one account appended.  That account holds the stripped
    name, the lowercased email and a credential record that
    [verify_password] accepts for the password of the request, in any
    state. *)
Theorem signup_stores_verifiable_account req w result :
  (signup req w).1 = inr result →
  ∃ account record,
    users_of (signup req w).2 = (users_of w ++ [account])%list
    ∧ account !! "name" = Some (VStr (strip (SignupRequest.name req)))
    ∧ account !! "email" = Some (VStr (lower (SignupRequest.email req)))
    ∧ account !! "password_hash" = Some (VStr record)
    ∧ ∀ w1, verify_password (SignupRequest.password req) record w1
            = (inr true, w1).
Proof.
  intros H. destruct (signup_db_cases req w) as [Hsame|(d & Ed & _ & Hdb)].
  - exfalso. revert H Hsame.
    unfold signup, get_db, mbind, M_bind. cbn [fst snd].
    destruct (db w) as [d|] eqn:Ed; [|discriminate].
    unfold find_one. rewrite Ed.
    destruct (found _) eqn:Ef; [discriminate|]. intros _.
    rewrite hash_password_fresh.
    unfold now_utc, insert_one, after_urandom. cbn [db clock oids entropy log].
    unfold getitem. rewrite doc_lookup_name, doc_lookup_email.
    unfold mret, M_ret. cbn [snd db]. intros [= Hd].
    apply (f_equal (λ m : database, List.length (default [] (m !! "user")))) in Hd.
    rewrite lookup_insert_eq in Hd. cbn [from_option id] in Hd.
    rewrite length_app in Hd. cbn [List.length] in Hd. lia.
  - exists (new_account req w). eexists.
    split.
    { unfold users_of. rewrite Hdb, Ed. cbn [from_option id].
      by rewrite lookup_insert_eq. }
    split.
    { unfold new_account. rewrite lookup_insert_ne by done.
      apply lookup_insert_eq. }
    split; [apply new_account_email|].
    split; [apply new_account_password_hash|].
    intros w1. rewrite verify_password_wellformed
      by auto using fresh_salt_truthy, fresh_salt_no_delim, sha256_hex_no_delim.
    by rewrite String.eqb_refl.
Qed.

Lemma signup_stores_verifiable_account_witness :
  ∃ account record,
    users_of (signup (SignupRequest.Build " Ann " "ANN@x.com" "secret1")
                     sample_world).2
    = (users_of sample_world ++ [account])%list
    ∧ account !! "password_hash" = Some (VStr record)
    ∧ verify_password "secret1" record sample_world = (inr true, sample_world).
Proof.
  destruct (signup_stores_verifiable_account
              (SignupRequest.Build " Ann " "ANN@x.com" "secret1") sample_world
              {[ "user_id" := VStr "65a000000000000000000000";
                 "name" := VStr "Ann"; "email" := VStr "ann@x.com" ]})
    as (account & record & H1 & _ & _ & H2 & H3).
  - vm_compute. reflexivity.
  - exists account, record. split; [exact H1|]. split; [exact H2|apply H3].
Defined.

(** X12. Whatever its outcome, a signup drops and alters nothing: every
    collection other than the users is as before, and the users of before
    are the first users of after, in the same order. *)
Theorem signup_keeps_documents req w collection :
  docs_of collection w `prefix_of` docs_of collection (signup req w).2
  ∧ (collection ≠ "user" →
     docs_of collection (signup req w).2 = docs_of collection w).
Proof.
  unfold docs_of.
  destruct (signup_db_cases req w) as [->|(d & Ed & _ & ->)]; [done|].
  rewrite Ed. cbn [from_option id].
  destruct (decide (collection = "user")) as [->|Hne].
  - rewrite lookup_insert_eq. cbn [from_option id].
    split; [by apply prefix_app_r|done].
  - by rewrite lookup_insert_ne.
Qed.

(** X13. Signup keeps the emails of the users collection lowercase: if
    every stored email is its own lowercase form before a signup, so is
    every stored email after it, whatever the request and the outcome. *)
Theorem signup_keeps_emails_lowercase req w :
  (∀ account e, In account (users_of w) →
                account !! "email" = Some (VStr e) → lower e = e) →
  ∀ account e, In account (users_of (signup req w).2) →
               account !! "email" = Some (VStr e) → lower e = e.
Proof.
  intros Hinv account e. unfold users_of in *.
  destruct (signup_db_cases req w) as [->|(d & Ed & _ & ->)]; [apply Hinv|].
  rewrite Ed in Hinv. cbn [from_option id] in *.
  rewrite lookup_insert_eq. cbn [from_option id].
  intros Hin He. apply in_app_or in Hin as [Hin|[<-|[]]].
  - by apply (Hinv account).
  - rewrite new_account_email in He. injection He as <-. apply lower_idem.
Qed.

Lemma signup_keeps_emails_lowercase_witness :
  lower "bob@x.com" = "bob@x.com".
Proof.
  apply (signup_keeps_emails_lowercase
           (SignupRequest.Build "Bob" "BOB@x.com" "pw") ann_world)
    with (account := new_account (SignupRequest.Build "Bob" "BOB@x.com" "pw")
                                 ann_world).
  - intros account e [<-|[]]. vm_compute. intros [= <-]. reflexivity.
  - vm_compute. right. left. reflexivity.
  - vm_compute. reflexivity.
Defined.

(** * Notes and reminders *)

Lemma matches_user_id uid (doc : document) :
  matches {[ "user_id" := VStr uid ]} doc
  = bool_decide (doc !! "user_id" = Some (VStr uid)).
Proof.
  unfold matches. rewrite map_to_list_singleton. cbn [forallb fst snd].
  by rewrite andb_true_r.
Qed.

Lemma rename_id_run (doc : document) w :
  rename_id doc w
  = match doc !! "_id" with
    | Some _ => (inr (renamed doc), w)
    | None => (inl (KeyError "_id"), w)
    end.
Proof.
  unfold rename_id, pop, renamed, mbind, M_bind.
  by destruct (doc !! "_id").
Qed.

Lemma for_items_ok l w :
  (∀ doc, In doc l → is_Some (doc !! "_id")) →
  for_items rename_id l w = (inr (map renamed l), w).
Proof.
  induction l as [|doc l IH]; intros H; [done|].
  cbn [for_items map]. unfold mbind, M_bind. rewrite rename_id_run.
  destruct (H doc) as [v ->]; [by left|].
  rewrite IH; [done|]. intros d Hd. apply H. by right.
Qed.

Lemma for_items_inv l w its :
  (for_items rename_id l w).1 = inr its →
  ∀ doc, In doc l → is_Some (doc !! "_id").
Proof.
  revert its. induction l as [|doc l IH]; intros its H d Hd; [done|].
  cbn [for_items] in H. unfold mbind, M_bind in H. rewrite rename_id_run in H.
  destruct (doc !! "_id") as [v|] eqn:E; [|discriminate].
  destruct Hd as [<-|Hd]; [by rewrite E|].
  destruct (for_items rename_id l w) as [[e|its'] w'] eqn:El; [discriminate|].
  by apply (IH its').
Qed.

Lemma renamed_shape (doc : document) v :
  doc !! "_id" = Some v →
  renamed doc !! "_id" = None
  ∧ renamed doc !! "id" = Some (VStr (str v))
  ∧ ∀ k, k ≠ "id" → k ≠ "_id" → renamed doc !! k = doc !! k.
Proof.
  intros E. unfold renamed. rewrite E.
  split; [rewrite lookup_insert_ne by done; apply lookup_delete_eq|].
  split; [apply lookup_insert_eq|].
  intros k H1 H2. rewrite lookup_insert_ne by done. by apply lookup_delete_ne.
Qed.

(* The two steps the listing endpoints share once the store is there. *)
Lemma listing_inv sort collection uid w d resp :
  db w = Some d →
  ((matching ← Collection.find collection {[ "user_id" := VStr uid ]};
    items ← for_items rename_id (sort "created_at" (-1)%Z matching);
    mret (Items items)) w).1 = inr resp →
  items resp
  = map renamed (sort "created_at" (-1)%Z (documents_of_user collection uid w))
  ∧ ∀ doc, In doc (sort "created_at" (-1)%Z (documents_of_user collection uid w)) →
           is_Some (doc !! "_id").
Proof.
  intros Ed. unfold documents_of_user, docs_of, Collection.find, mbind, M_bind.
  rewrite Ed. cbn [from_option id].
  set (l := sort _ _ _).
  destruct (for_items rename_id l w) as [[e|its] w'] eqn:El; [discriminate|].
  unfold mret, M_ret. cbn [fst]. intros [= <-]. cbn [items].
  assert (∀ doc, In doc l → is_Some (doc !! "_id")) as Hid.
  { apply (for_items_inv l w its). by rewrite El. }
  split; [|exact Hid].
  rewrite (for_items_ok l w Hid) in El. congruence.
Qed.

Lemma listing_ok sort collection uid w d :
  db w = Some d →
  (∀ doc, In doc (sort "created_at" (-1)%Z (documents_of_user collection uid w)) →
          is_Some (doc !! "_id")) →
  (matching ← Collection.find collection {[ "user_id" := VStr uid ]};
   items ← for_items rename_id (sort "created_at" (-1)%Z matching);
   mret (Items items)) w
  = (inr (Items (map renamed
                   (sort "created_at" (-1)%Z (documents_of_user collection uid w)))),
     w).
Proof.
  intros Ed Hid. unfold documents_of_user, docs_of in *.
  unfold Collection.find, mbind, M_bind.
  rewrite Ed in *. cbn [from_option id] in *.
  by rewrite (for_items_ok _ w Hid).
Qed.

Lemma get_notes_inv sort uid w resp :
  (get_notes sort uid w).1 = inr resp →
  items resp
  = map renamed (sort "created_at" (-1)%Z (documents_of_user "note" uid w))
  ∧ ∀ doc, In doc (sort "created_at" (-1)%Z (documents_of_user "note" uid w)) →
           is_Some (doc !! "_id").
Proof.
  unfold get_notes, get_db. unfold mbind at 1, M_bind at 1. cbn [fst snd].
  destruct (db w) as [d|] eqn:Ed; [|discriminate].
  apply (listing_inv sort "note" uid w d resp Ed).
Qed.

Lemma get_reminders_inv sort uid w resp :
  (get_reminders sort uid w).1 = inr resp →
  items resp
  = map renamed (sort "created_at" (-1)%Z (documents_of_user "reminder" uid w))
  ∧ ∀ doc, In doc (sort "created_at" (-1)%Z (documents_of_user "reminder" uid w)) →
           is_Some (doc !! "_id").
Proof.
  unfold get_reminders, get_db. unfold mbind at 1, M_bind at 1. cbn [fst snd].
  destruct (db w) as [d|] eqn:Ed; [|discriminate].
  apply (listing_inv sort "reminder" uid w d resp Ed).
Qed.

Lemma add_note_run req w d :
  db w = Some d →
  (add_note req w).1 = inr {[ "id" := VStr (oids w 0) ]}
  ∧ db (add_note req w).2
    = Some (<["note" := (default [] (d !! "note") ++ [new_note req w])%list]> d).
Proof.
  intros Ed. unfold add_note, get_db, mbind, M_bind. cbn [fst snd].
  rewrite Ed. unfold now_utc, insert_one. cbn [db clock oids entropy log].
  by rewrite Ed.
Qed.

Lemma add_reminder_run req w d :
  db w = Some d →
  (add_reminder req w).1 = inr {[ "id" := VStr (oids w 0) ]}
  ∧ db (add_reminder req w).2
    = Some (<["reminder" := (default [] (d !! "reminder")
                             ++ [new_reminder req w])%list]> d).
Proof.
  intros Ed. unfold add_reminder, get_db, mbind, M_bind. cbn [fst snd].
  rewrite Ed. unfold now_utc, insert_one. cbn [db clock oids entropy log].
  by rewrite Ed.
Qed.

(** X14. With the store handle unset, adding and listing notes and
    reminders all fail with 500 "Database not configured" and leave the
    state untouched. *)
Theorem notes_reminders_unconfigured sort nreq rreq uid w :
  db w = None →
  add_note nreq w = (inl (HTTPException 500 "Database not configured"), w)
  ∧ add_reminder rreq w = (inl (HTTPException 500 "Database not configured"), w)
  ∧ get_notes sort uid w = (inl (HTTPException 500 "Database not configured"), w)
  ∧ get_reminders sort uid w
    = (inl (HTTPException 500 "Database not configured"), w).
Proof.
  intros H.
  unfold add_note, add_reminder, get_notes, get_reminders, get_db, mbind, M_bind.
  cbn [fst snd]. by rewrite H.
Qed.

Lemma notes_reminders_unconfigured_witness :
  add_note (NoteRequest.Build "u1" "read") unconfigured_world
  = (inl (HTTPException 500 "Database not configured"), unconfigured_world).
Proof.
  apply (notes_reminders_unconfigured newest_first
           (NoteRequest.Build "u1" "read")
           (ReminderRequest.Build "u1" "exam" "07:30") "u1" unconfigured_world).
  reflexivity.
Defined.

Section ListingProperties.

Variable sort : string → Z → list document → list document.
Hypothesis sort_rearranges : ∀ key direction l, Permutation (sort key direction l) l.

(** X15. A listing that succeeds returns the documents of the requested
    user and no others: its items are, up to order, the stored notes (or
    reminders) whose [user_id] is the one asked for, each with "_id"
    turned into "id". *)
Theorem listing_returns_the_users_documents uid w :
  (∀ resp, (get_notes sort uid w).1 = inr resp →
           Permutation (items resp)
                       (map renamed (documents_of_user "note" uid w)))
  ∧ (∀ resp, (get_reminders sort uid w).1 = inr resp →
             Permutation (items resp)
                         (map renamed (documents_of_user "reminder" uid w))).
Proof.
  split; intros resp H.
  - apply get_notes_inv in H as [-> _]. apply Permutation_map, sort_rearranges.
  - apply get_reminders_inv in H as [-> _]. apply Permutation_map, sort_rearranges.
Qed.

(** X16. Every item of a listing has no "_id" field, has under "id" the
    string of the "_id" of a stored document of the requested user, and
    agrees with that document on every other field. *)
Theorem listed_item_shape uid w resp it :
  (get_notes sort uid w).1 = inr resp
  ∨ (get_reminders sort uid w).1 = inr resp →
  In it (items resp) →
  it !! "_id" = None
  ∧ it !! "user_id" = Some (VStr uid)
  ∧ ∃ doc v,
      (In doc (docs_of "note" w) ∨ In doc (docs_of "reminder" w))
      ∧ doc !! "_id" = Some v
      ∧ it !! "id" = Some (VStr (str v))
      ∧ ∀ k, k ≠ "id" → k ≠ "_id" → it !! k = doc !! k.
Proof.
  intros H Hin.
  assert (∃ c, (c = "note" ∨ c = "reminder")
               ∧ items resp
                 = map renamed (sort "created_at" (-1)%Z (documents_of_user c uid w))
               ∧ ∀ doc, In doc (sort "created_at" (-1)%Z (documents_of_user c uid w))
                        → is_Some (doc !! "_id")) as (c & Hc & E & Hid).
  { destruct H as [H|H].
    - exists "note". split; [by left|]. by apply get_notes_inv.
    - exists "reminder". split; [by right|]. by apply get_reminders_inv. }
  rewrite E in Hin. apply in_map_iff in Hin as (doc & <- & Hdoc).
  destruct (Hid doc Hdoc) as [v Hv].
  apply (Permutation_in _ (sort_rearranges _ _ _)) in Hdoc.
  unfold documents_of_user in Hdoc. apply filter_In in Hdoc as [Hdoc Hm].
  rewrite matches_user_id in Hm. apply bool_decide_eq_true in Hm.
  destruct (renamed_shape doc v Hv) as (H1 & H2 & H3).
  split; [exact H1|]. split; [by rewrite H3|].
  exists doc, v. split; [|done].
  destruct Hc as [->| ->]; [by left|by right].
Qed.

(** X17. A note added is a note listed.  In a configured store whose
    notes all carry an "_id", add_note returns the identifier the store
    assigned, and the listing that follows for the same user succeeds,
    holds one item more than the user had notes, and among its items one
    has that identifier and the content of the request. *)
Theorem add_note_then_get_notes req w :
  db w ≠ None → all_identified "note" w →
  (add_note req w).1 = inr {[ "id" := VStr (oids w 0) ]}
  ∧ ∃ resp it,
      (get_notes sort (NoteRequest.user_id req) (add_note req w).2).1 = inr resp
      ∧ List.length (items resp)
        = S (List.length (documents_of_user "note" (NoteRequest.user_id req) w))
      ∧ In it (items resp)
      ∧ it !! "id" = Some (VStr (oids w 0))
      ∧ it !! "content" = Some (VStr (NoteRequest.content req)).
Proof.
  intros Hdb Hid. destruct (db w) as [d|] eqn:Ed; [clear Hdb|done].
  destruct (add_note_run req w d Ed) as [Hres Hdb]. split; [exact Hres|].
  set (w' := (add_note req w).2) in *.
  assert (docs_of "note" w' = (docs_of "note" w ++ [new_note req w])%list) as Hdocs.
  { unfold docs_of. rewrite Hdb, Ed. cbn [from_option id].
    by rewrite lookup_insert_eq. }
  assert (new_note req w !! "_id" = Some (VObjectId (oids w 0))) as Hnid
    by apply lookup_insert_eq.
  assert (documents_of_user "note" (NoteRequest.user_id req) w'
          = (documents_of_user "note" (NoteRequest.user_id req) w
             ++ [new_note req w])%list) as Huser.
  { unfold documents_of_user. rewrite Hdocs, List.filter_app. f_equal.
    cbn [List.filter]. rewrite matches_user_id.
    rewrite bool_decide_eq_true_2; [done|].
    unfold new_note. rewrite lookup_insert_ne by done. apply lookup_insert_eq. }
  assert (∀ doc, In doc (sort "created_at" (-1)%Z
                           (documents_of_user "note" (NoteRequest.user_id req) w'))
                 → is_Some (doc !! "_id")) as Hall.
  { intros doc Hdoc. apply (Permutation_in _ (sort_rearranges _ _ _)) in Hdoc.
    unfold documents_of_user in Hdoc. apply filter_In in Hdoc as [Hdoc _].
    rewrite Hdocs in Hdoc. apply in_app_or in Hdoc as [Hdoc|[<-|[]]].
    - by apply Hid.
    - by rewrite Hnid. }
  eexists _, (renamed (new_note req w)). split.
  { unfold get_notes, get_db. unfold mbind at 1, M_bind at 1. cbn [fst snd].
    rewrite Hdb. by rewrite (listing_ok sort "note" _ w' _ Hdb Hall). }
  cbn [items]. split.
  { rewrite length_map, (Permutation_length (sort_rearranges _ _ _)), Huser.
    rewrite length_app. cbn [List.length]. lia. }
  split.
  { apply in_map. apply (Permutation_in _ (Permutation_sym (sort_rearranges _ _ _))).
    rewrite Huser. apply in_or_app. right. by left. }
  destruct (renamed_shape _ _ Hnid) as (_ & H2 & H3). split; [exact H2|].
  rewrite H3 by done. unfold new_note.
  rewrite !lookup_insert_ne by done. apply lookup_insert_eq.
Qed.

(** X18. A reminder added is a reminder listed, in the same way: the
    listing that follows for the same user succeeds, holds one item more,
    and among its items one has the identifier add_reminder returned, and
    the text and the time of the request. *)
Theorem add_reminder_then_get_reminders req w :
  db w ≠ None → all_identified "reminder" w →
  (add_reminder req w).1 = inr {[ "id" := VStr (oids w 0) ]}
  ∧ ∃ resp it,
      (get_reminders sort (ReminderRequest.user_id req) (add_reminder req w).2).1
      = inr resp
      ∧ List.length (items resp)
        = S (List.length
               (documents_of_user "reminder" (ReminderRequest.user_id req) w))
      ∧ In it (items resp)
      ∧ it !! "id" = Some (VStr (oids w 0))
      ∧ it !! "text" = Some (VStr (ReminderRequest.text req))
      ∧ it !! "time" = Some (VStr (ReminderRequest.time req)).
Proof.
  intros Hdb Hid. destruct (db w) as [d|] eqn:Ed; [clear Hdb|done].
  destruct (add_reminder_run req w d Ed) as [Hres Hdb]. split; [exact Hres|].
  set (w' := (add_reminder req w).2) in *.
  assert (docs_of "reminder" w'
          = (docs_of "reminder" w ++ [new_reminder req w])%list) as Hdocs.
  { unfold docs_of. rewrite Hdb, Ed. cbn [from_option id].
    by rewrite lookup_insert_eq. }
  assert (new_reminder req w !! "_id" = Some (VObjectId (oids w 0))) as Hnid
    by apply lookup_insert_eq.
  assert (documents_of_user "reminder" (ReminderRequest.user_id req) w'
          = (documents_of_user "reminder" (ReminderRequest.user_id req) w
             ++ [new_reminder req w])%list) as Huser.
  { unfold documents_of_user. rewrite Hdocs, List.filter_app. f_equal.
    cbn [List.filter]. rewrite matches_user_id.
    rewrite bool_decide_eq_true_2; [done|].
    unfold new_reminder. rewrite lookup_insert_ne by done. apply lookup_insert_eq. }
  assert (∀ doc, In doc (sort "created_at" (-1)%Z
                           (documents_of_user "reminder"
                              (ReminderRequest.user_id req) w'))
                 → is_Some (doc !! "_id")) as Hall.
  { intros doc Hdoc. apply (Permutation_in _ (sort_rearranges _ _ _)) in Hdoc.
    unfold documents_of_user in Hdoc. apply filter_In in Hdoc as [Hdoc _].
    rewrite Hdocs in Hdoc. apply in_app_or in Hdoc as [Hdoc|[<-|[]]].
    - by apply Hid.
    - by rewrite Hnid. }
  eexists _, (renamed (new_reminder req w)). split.
  { unfold get_reminders, get_db. unfold mbind at 1, M_bind at 1. cbn [fst snd].
    rewrite Hdb. by rewrite (listing_ok sort "reminder" _ w' _ Hdb Hall). }
  cbn [items]. split.
  { rewrite length_map, (Permutation_length (sort_rearranges _ _ _)), Huser.
    rewrite length_app. cbn [List.length]. lia. }
  split.
  { apply in_map. apply (Permutation_in _ (Permutation_sym (sort_rearranges _ _ _))).
    rewrite Huser. apply in_or_app. right. by left. }
  destruct (renamed_shape _ _ Hnid) as (_ & H2 & H3). split; [exact H2|].
  rewrite !H3 by done. unfold new_reminder.
  split.
  - rewrite !lookup_insert_ne by done. apply lookup_insert_eq.
  - rewrite !lookup_insert_ne by done. apply lookup_insert_eq.
Qed.

End ListingProperties.

Lemma newest_first_rearranges key direction (l : list document) :
  Permutation (newest_first key direction l) l.
Proof. unfold newest_first. symmetry. apply Permutation_rev. Qed.

Lemma listing_returns_the_users_documents_witness :
  Permutation [renamed ann_note]
              (map renamed
                 (documents_of_user "note" "65a000000000000000000000" note_world)).
Proof.
  apply (proj1 (listing_returns_the_users_documents newest_first
                  newest_first_rearranges "65a000000000000000000000" note_world)
               (Items [renamed ann_note])).
  vm_compute. reflexivity.
Defined.

Lemma listed_item_shape_witness :
  renamed ann_note !! "_id" = None
  ∧ renamed ann_note !! "user_id" = Some (VStr "65a000000000000000000000").
Proof.
  destruct (listed_item_shape newest_first newest_first_rearranges
              "65a000000000000000000000" note_world
              (Items [renamed ann_note]) (renamed ann_note))
    as (H1 & H2 & _).
  - left. vm_compute. reflexivity.
  - left. reflexivity.
  - exact (conj H1 H2).
Defined.

Lemma add_note_then_get_notes_witness :
  (add_note (NoteRequest.Build "65a000000000000000000000" "read chapter 4")
            note_world).1
  = inr {[ "id" := VStr (oids note_world 0) ]}.
Proof.
  apply (add_note_then_get_notes newest_first newest_first_rearranges
           (NoteRequest.Build "65a000000000000000000000" "read chapter 4")
           note_world).
  - discriminate.
  - intros doc [<-|[]]. vm_compute. eauto.
Defined.

Lemma add_reminder_then_get_reminders_witness :
  (add_reminder (ReminderRequest.Build "65a000000000000000000000" "exam" "07:30")
                sample_world).1
  = inr {[ "id" := VStr (oids sample_world 0) ]}.
Proof.
  apply (add_reminder_then_get_reminders newest_first newest_first_rearranges
           (ReminderRequest.Build "65a000000000000000000000" "exam" "07:30")
           sample_world).
  - discriminate.
  - intros doc [].
Defined.

Lemma verify_password_true_iff_witness :
  (verify_password "secret1"
     "ab$f1001cf9ed062b356ca028a62e6ffab9ebdcc0e9e6a4998a802993d6b1fcde8a"
     sample_world).1 = inr true.
Proof.
  apply (proj2 (verify_password_true_iff "secret1"
     "ab$f1001cf9ed062b356ca028a62e6ffab9ebdcc0e9e6a4998a802993d6b1fcde8a"
     sample_world)).
  exists "ab". split; [discriminate|]. split; vm_compute; reflexivity.
Defined.
